(** * AeroFacil: the request handlers of [aerofacil/views.py]

    A shallow embedding of the Django views of the seat-sharing
    marketplace: the public listings ([HomePageView], [TripListView],
    [TripDetailView]), the booking flow ([CreateBookingView]) and the
    owner's panel ([DashboardView], [TripCreateView], [TripUpdateView],
    [TripDeleteView]).

    The tables of the relational store are lists of rows in storage
    order, a handler is a computation over the store and the flash
    messages that either returns or is cut short by an HTTP response
    (the mixins and [get_object_or_404]), and the clock is an input. *)

From Stdlib Require Import ZArith List String Ascii Bool Lia.
From Stdlib Require Import Sorted Permutation.
Import ListNotations.

Open Scope string_scope.
Open Scope list_scope.
Open Scope Z_scope.

Set Implicit Arguments.

(* ================================================================== *)
(** * The models used by the views *)

(** A user is identified by the primary key of its row; the anonymous
    requester is [None] where a request carries a user. *)
Definition User := Z.

(** Modelled from the spec: the models are declared in [models.py],
    which the views import.  The fields are those the spec lists for a
    Trip, which are the ones the views name; a reference to another row
    is its key, a time is a number of seconds. *)
Module Trip.
Record t := mk {
  pk : Z;
  owner : User;
  aircraft : Z;
  origin : string;
  destination : string;
  departure_time : Z;
  arrival_time : Z;
  available_seats : Z;
  description : string;
  status : string
}.
End Trip.

(** Modelled from the spec: the fields the spec lists for a Booking. *)
Module Booking.
Record t := mk {
  pk : Z;
  trip : Z;
  passenger : User;
  seats_requested : Z;
  message_to_owner : string
}.
End Booking.

(** Modelled from the spec: an Aircraft has an owner. *)
Module Aircraft.
Record t := mk {
  pk : Z;
  owner : User
}.
End Aircraft.

Record DB := mkDB {
  Trip_objects : list Trip.t;
  Booking_objects : list Booking.t;
  Aircraft_objects : list Aircraft.t
}.

(* ================================================================== *)
(** * Query sets *)

(** [order_by]: a stable insertion sort on an integer key.  Descending
    order ([order_by('-departure_time')]) negates the key. *)
Fixpoint insert_by (A : Type) (key : A -> Z) (x : A) (l : list A) : list A :=
  match l with
  | [] => [x]
  | y :: l' => if key x <=? key y then x :: l else y :: insert_by key x l'
  end.

Definition order_by (A : Type) (key : A -> Z) (l : list A) : list A :=
  fold_right (insert_by key) [] l.

(** [qs[:n]] *)
Definition slice_to (A : Type) (n : nat) (l : list A) : list A := firstn n l.

(** [qs.exists()] after a filter *)
Definition exists_ (A : Type) (p : A -> bool) (l : list A) : bool := existsb p l.

(** [Model.objects.get(pk=...)]: the row with that key, if any. *)
Definition get_by_pk (A : Type) (pk_of : A -> Z) (k : Z) (l : list A) : option A :=
  find (fun x => pk_of x =? k) l.

(** ** Field lookups *)

Definition lower_ascii (c : ascii) : ascii :=
  let n := nat_of_ascii c in
  if ((65 <=? n) && (n <=? 90))%nat then ascii_of_nat (n + 32) else c.

Fixpoint lower (s : string) : string :=
  match s with
  | EmptyString => EmptyString
  | String c s' => String (lower_ascii c) (lower s')
  end.

Fixpoint contains (hay needle : string) : bool :=
  prefix needle hay
  || match hay with
     | EmptyString => false
     | String _ hay' => contains hay' needle
     end.

(** [field__icontains=value] *)
Definition icontains (field value : string) : bool :=
  contains (lower field) (lower value).

(** [status='OPEN', departure_time__gte=now] *)
Definition open_and_upcoming (now : Z) (t : Trip.t) : bool :=
  (Trip.status t =? "OPEN")%string && (now <=? Trip.departure_time t).

(** ** Dates *)

(** A calendar date, as the framework hands it to a date lookup. *)
Module Date.
Record t := mk {
  year : Z;
  month : Z;
  day : Z
}.
End Date.

Definition is_leap (y : Z) : bool :=
  (y mod 4 =? 0) && (negb (y mod 100 =? 0) || (y mod 400 =? 0)).

Definition days_in_month (y m : Z) : Z :=
  if m =? 2 then (if is_leap y then 29 else 28)
  else if (m =? 4) || (m =? 6) || (m =? 9) || (m =? 11) then 30
  else 31.

(** The month and the day are of the calendar. *)
Definition on_calendar (d : Date.t) : bool :=
  (1 <=? Date.month d) && (Date.month d <=? 12)
  && (1 <=? Date.day d)
  && (Date.day d <=? days_in_month (Date.year d) (Date.month d)).

(** The number of a day, counted from 1970-01-01. *)
Definition days_from_civil (d : Date.t) : Z :=
  let y := if Date.month d <=? 2 then Date.year d - 1 else Date.year d in
  let mp := if Date.month d <=? 2 then Date.month d + 9 else Date.month d - 3 in
  365 * y + y / 4 - y / 100 + y / 400 + (153 * mp + 2) / 5 + Date.day d - 1 - 719468.

Definition digit_of (c : ascii) : option Z :=
  let n := nat_of_ascii c in
  if ((48 <=? n) && (n <=? 57))%nat then Some (Z.of_nat (n - 48)) else None.

Fixpoint read_digits (acc : Z) (s : string) : option Z :=
  match s with
  | EmptyString => Some acc
  | String c s' =>
      match digit_of c with
      | Some v => read_digits (10 * acc + v) s'
      | None => None
      end
  end.

Definition read_number (s : string) : option Z :=
  match s with
  | EmptyString => None
  | String _ _ => read_digits 0 s
  end.

Fixpoint split_on (sep : ascii) (s : string) : list string :=
  match s with
  | EmptyString => [EmptyString]
  | String c s' =>
      if Ascii.eqb c sep then EmptyString :: split_on sep s'
      else match split_on sep s' with
           | field :: fields => String c field :: fields
           | [] => [String c EmptyString]
           end
  end.

(** The date a text names, as the framework reads the value of a date
    lookup before the query is made: year, month and day in digits with
    hyphens between them, four digits for the year, one or two for the
    month and for the day, the year from 1 on, the month and the day of
    the calendar.  [None] is the framework's [ValidationError]. *)
Definition parse_date (text : string) : option Date.t :=
  match split_on "-" text with
  | [ys; ms; ds] =>
      match read_number ys, read_number ms, read_number ds with
      | Some y, Some m, Some d =>
          let date := Date.mk y m d in
          if (String.length ys =? 4)%nat
             && (String.length ms <=? 2)%nat
             && (String.length ds <=? 2)%nat
             && (1 <=? y) && on_calendar date
          then Some date
          else None
      | _, _, _ => None
      end
  | _ => None
  end.

(** The date comparison of a database that keeps a time as the seconds
    of the server's civil time counted from 1970-01-01 00:00: the day
    the time falls on is the day the text names. *)
Definition same_day (time : Z) (d : Date.t) : bool :=
  time / 86400 =? days_from_civil d.

Definition calendar_date_lookup (time : Z) (value : string) : bool :=
  match parse_date value with
  | Some d => same_day time d
  | None => false
  end.

(* ================================================================== *)
(** * Requests and responses *)

(** [request.GET]: the pairs of the query string in order; [get]
    answers the last value given for a key. *)
Definition QueryDict := list (string * string).

Fixpoint QueryDict_get (q : QueryDict) (key : string) : option string :=
  match q with
  | [] => None
  | (k, v) :: q' =>
      match QueryDict_get q' key with
      | Some v' => Some v'
      | None => if (k =? key)%string then Some v else None
      end
  end.

(** Truth value of [request.GET.get(...)] in an [if]: [None] and the
    empty string are false. *)
Definition truthy (o : option string) : bool :=
  match o with
  | Some (String _ _) => true
  | _ => false
  end.

(** The text of a value that [truthy] has tested. *)
Definition text_of (o : option string) : string :=
  match o with
  | Some v => v
  | None => ""
  end.

Inductive Url :=
| url_trip_detail (pk : Z)
| url_dashboard
| url_login.

Inductive Context :=
| ctx_empty
| ctx_trips (name : string) (object_list : list Trip.t)
| ctx_trip (name : string) (object : Trip.t)
| ctx_trip_form (aircraft_choices : list Aircraft.t) (instance : option Trip.t)
| ctx_booking_form.

(** [Http404] and [PermissionDenied] are the exceptions the framework
    turns into the pages of those names; [ValidationError] is the
    exception a date lookup raises on a text that is no date, which no
    view catches: the request fails with a server error. *)
Inductive Response :=
| render (template_name : string) (context : Context)
| redirect (to : Url)
| Http404
| PermissionDenied
| ValidationError.

Inductive Level := level_success | level_warning | level_error.

Inductive Method := GET | POST.

(** The part of the world a handler acts on: the store and the flash
    messages queued for the requester. *)
Record World := mkWorld {
  database : DB;
  flash : list (Level * string)
}.

(** A handler step returns a value or is cut short by a response. *)
Inductive Result (A : Type) :=
| Ok (a : A)
| Abort (r : Response).
Arguments Abort {A} r.

Definition View (A : Type) := World -> Result A * World.

Definition ret (A : Type) (a : A) : View A := fun w => (Ok a, w).

Definition bind (A B : Type) (m : View A) (k : A -> View B) : View B :=
  fun w =>
    match m w with
    | (Ok a, w') => k a w'
    | (Abort r, w') => (Abort r, w')
    end.

Notation "x <- m ;; k" := (bind m (fun x => k))
  (at level 61, m at next level, right associativity).
Notation "m ;;; k" := (bind m (fun _ => k))
  (at level 61, right associativity).

Definition raise {A : Type} (r : Response) : View A := fun w => (Abort r, w).

Definition objects (A : Type) (table : DB -> list A) : View (list A) :=
  fun w => (Ok (table (database w)), w).

Definition messages_add (lvl : Level) (text : string) : View unit :=
  fun w => (Ok tt, mkWorld (database w) (flash w ++ [(lvl, text)])).

Definition get_object_or_404 (k : Z) : View Trip.t :=
  trips <- objects Trip_objects ;;
  match get_by_pk Trip.pk k trips with
  | Some t => ret t
  | None => raise Http404
  end.

(** [request.user.is_authenticated] failing in [LoginRequiredMixin],
    or [test_func] failing in [UserPassesTestMixin]: the framework's
    [handle_no_permission]. *)
Definition handle_no_permission {A : Type} (user : option User) : View A :=
  match user with
  | Some _ => raise PermissionDenied
  | None => raise (redirect url_login)
  end.

Definition LoginRequiredMixin (user : option User) : View User :=
  match user with
  | Some u => ret u
  | None => handle_no_permission user
  end.

Definition UserPassesTestMixin (user : option User) (test_func : View bool)
  : View unit :=
  user_test_result <- test_func ;;
  if user_test_result then ret tt else handle_no_permission user.

(** ** Writing to the store *)

(** The key a new row gets: above every key of the table.  (A
    database sequence also stays above the keys of rows deleted since;
    the views take the key as it comes, and nothing below rests on
    which unused key is issued.) *)
Definition next_pk (A : Type) (pk_of : A -> Z) (l : list A) : Z :=
  1 + fold_right Z.max 0 (map pk_of l).

Definition Booking_create (trip : Z) (passenger : User) (seats : Z) (message : string)
  : View unit :=
  fun w =>
    let d := database w in
    let row := Booking.mk (next_pk Booking.pk (Booking_objects d))
                 trip passenger seats message in
    (Ok tt,
     mkWorld (mkDB (Trip_objects d) (Booking_objects d ++ [row]) (Aircraft_objects d))
       (flash w)).

Definition Trip_create (row : Z -> Trip.t) : View unit :=
  fun w =>
    let d := database w in
    (Ok tt,
     mkWorld (mkDB (Trip_objects d ++ [row (next_pk Trip.pk (Trip_objects d))])
                (Booking_objects d) (Aircraft_objects d))
       (flash w)).

Definition Trip_update (row : Trip.t) : View unit :=
  fun w =>
    let d := database w in
    (Ok tt,
     mkWorld (mkDB (map (fun t => if Trip.pk t =? Trip.pk row then row else t)
                      (Trip_objects d))
                (Booking_objects d) (Aircraft_objects d))
       (flash w)).

(** Modelled from the spec: the [on_delete] rule of the rows that refer
    to a trip is declared with the models, which are not part of the
    views; the spec says only that the record is deleted, so the [Trip]
    row alone is removed. *)
Definition Trip_delete (row : Trip.t) : View unit :=
  fun w =>
    let d := database w in
    (Ok tt,
     mkWorld (mkDB (filter (fun t => negb (Trip.pk t =? Trip.pk row)) (Trip_objects d))
                (Booking_objects d) (Aircraft_objects d))
       (flash w)).

(** ** Bound forms *)

(** The submitted booking form after the framework has cleaned it:
    the values of the two fields of [fields] and whether they passed
    the validation of the model's fields.  [form_valid] runs on a valid
    form only; an invalid one is shown again. *)
Module BookingForm.
Record t := mk {
  seats_requested : Z;
  message_to_owner : string;
  is_valid : bool
}.
End BookingForm.

(** The submitted trip form.  [aircraft] is the key chosen ([None] when
    left blank); [status] is read by the update form only; [posted_owner]
    is an [owner] value sent with the request, which is not one of the
    form's fields; [fields_valid] is the validation of the fields other
    than [aircraft]. *)
Module TripForm.
Record t := mk {
  aircraft : option Z;
  origin : string;
  destination : string;
  departure_time : Z;
  arrival_time : Z;
  available_seats : Z;
  description : string;
  status : string;
  posted_owner : option User;
  fields_valid : bool
}.
End TripForm.

(** A model-choice field accepts a key of its query set and nothing
    else; its query set is the whole table unless [get_form] narrows
    it. *)
Definition choice_valid (queryset : list Aircraft.t) (choice : option Z) : bool :=
  match choice with
  | Some k => existsb (fun a => Aircraft.pk a =? k) queryset
  | None => false
  end.

Definition TripForm_is_valid (aircraft_queryset : list Aircraft.t) (form : TripForm.t)
  : bool :=
  TripForm.fields_valid form && choice_valid aircraft_queryset (TripForm.aircraft form).

Definition chosen (choice : option Z) : Z :=
  match choice with
  | Some k => k
  | None => 0
  end.

(** The response a request gets and the world it leaves. *)
Definition serve (v : View Response) (w : World) : Response * World :=
  match v w with
  | (Ok r, w') => (r, w')
  | (Abort r, w') => (r, w')
  end.

(** ** Pagination ([paginate_by], the framework's [Paginator]) *)

(** The [page] argument of a listing after the framework has read it:
    absent (or empty), the word [last], an integer, or anything else. *)
Inductive PageArg :=
| page_absent
| page_last
| page_int (n : Z)
| page_other.

Definition num_pages (count per_page : nat) : nat :=
  ((Nat.max 1 count + per_page - 1) / per_page)%nat.

Definition Paginator_page (A : Type) (per_page : nat) (l : list A) (number : nat)
  : list A :=
  firstn per_page (skipn ((number - 1) * per_page) l).

Definition paginate_queryset (A : Type) (per_page : nat) (l : list A) (p : PageArg)
  : View (list A) :=
  let last := num_pages (List.length l) per_page in
  match p with
  | page_absent => ret (Paginator_page per_page l 1)
  | page_last => ret (Paginator_page per_page l last)
  | page_int n =>
      if (1 <=? n) && (n <=? Z.of_nat last)
      then ret (Paginator_page per_page l (Z.to_nat n))
      else raise Http404
  | page_other => raise Http404
  end.

(* ================================================================== *)
(** * The views *)

Section Views.

(** The comparison the database makes for [departure_time__date=value]
    once the framework has read [value] as a date: whether the calendar
    date of a stored time, in the time zone of the settings, is the date
    the text names.  [calendar_date_lookup] is this comparison for times
    kept as seconds of civil time. *)
Variable date_lookup : Z -> string -> bool.

(** The status a new [Trip] row gets: the model's default, declared
    with the models. *)
Variable default_status : string.

(** ** Public views *)

Definition HomePageView_get_context_data (now : Z) : View Context :=
  trips <- objects Trip_objects ;;
  ret (ctx_trips "upcoming_trips"
         (slice_to 5 (order_by Trip.departure_time
                        (filter (open_and_upcoming now) trips)))).

Definition HomePageView (now : Z) : View Response :=
  context <- HomePageView_get_context_data now ;;
  ret (render "index.html" context).

Definition paginate_by : nat := 10.

(** [queryset.filter(departure_time__date=value)]: the framework reads
    the text as a date when the filter is built, and raises when it
    names none. *)
Definition filter_departure_time_date (value : string) (queryset : list Trip.t)
  : View (list Trip.t) :=
  match parse_date value with
  | Some _ =>
      ret (filter (fun t => date_lookup (Trip.departure_time t) value) queryset)
  | None => raise ValidationError
  end.

Definition TripListView_get_queryset (now : Z) (GET : QueryDict)
  : View (list Trip.t) :=
  trips <- objects Trip_objects ;;
  let queryset := filter (open_and_upcoming now) trips in
  let origin := QueryDict_get GET "origin" in
  let destination := QueryDict_get GET "destination" in
  let date := QueryDict_get GET "date" in
  let queryset :=
    if truthy origin
    then filter (fun t => icontains (Trip.origin t) (text_of origin)) queryset
    else queryset in
  let queryset :=
    if truthy destination
    then filter (fun t => icontains (Trip.destination t) (text_of destination))
           queryset
    else queryset in
  queryset <-
    (if truthy date
     then filter_departure_time_date (text_of date) queryset
     else ret queryset) ;;
  ret (order_by Trip.departure_time queryset).

Definition TripListView (now : Z) (GET : QueryDict) (page : PageArg)
  : View Response :=
  queryset <- TripListView_get_queryset now GET ;;
  object_list <- paginate_queryset paginate_by queryset page ;;
  ret (render "resultados.html" (ctx_trips "trips" object_list)).

Definition TripDetailView (k : Z) : View Response :=
  trip <- get_object_or_404 k ;;
  ret (render "detalhes.html" (ctx_trip "trip" trip)).

(** ** Booking *)

Definition CreateBookingView_fields : list string :=
  ["seats_requested"; "message_to_owner"].

Definition CreateBookingView_get_success_url (trip_pk : Z) : Url :=
  url_trip_detail trip_pk.

Definition CreateBookingView_form_valid
    (user : User) (trip_pk : Z) (form : BookingForm.t) : View Response :=
  trip <- get_object_or_404 trip_pk ;;
  if Trip.owner trip =? user then
    messages_add level_error
      "Você não pode reservar um assento na sua própria viagem." ;;;
    ret (redirect (url_trip_detail (Trip.pk trip)))
  else
    bookings <- objects Booking_objects ;;
    if exists_ (fun b => (Booking.trip b =? Trip.pk trip)
                         && (Booking.passenger b =? user)) bookings
    then
      messages_add level_warning "Você já demonstrou interesse nesta viagem." ;;;
      ret (redirect (url_trip_detail (Trip.pk trip)))
    else
      messages_add level_success
        "Seu interesse foi registrado com sucesso! O proprietário entrará em contato." ;;;
      Booking_create (Trip.pk trip) user
        (BookingForm.seats_requested form) (BookingForm.message_to_owner form) ;;;
      ret (redirect (CreateBookingView_get_success_url trip_pk)).

Definition CreateBookingView
    (user : option User) (method : Method) (trip_pk : Z) (form : BookingForm.t)
  : View Response :=
  u <- LoginRequiredMixin user ;;
  match method with
  | GET => ret (render "create_booking.html" ctx_booking_form)
  | POST =>
      if BookingForm.is_valid form
      then CreateBookingView_form_valid u trip_pk form
      else ret (render "create_booking.html" ctx_booking_form)
  end.

(** ** The owner's panel *)

Definition DashboardView_get_queryset (user : User) : View (list Trip.t) :=
  trips <- objects Trip_objects ;;
  ret (order_by (fun t => - Trip.departure_time t)
         (filter (fun t => Trip.owner t =? user) trips)).

Definition DashboardView (user : option User) : View Response :=
  u <- LoginRequiredMixin user ;;
  owner_trips <- DashboardView_get_queryset u ;;
  ret (render "dashboard.html" (ctx_trips "owner_trips" owner_trips)).

Definition TripCreateView_fields : list string :=
  ["aircraft"; "origin"; "destination"; "departure_time"; "arrival_time";
   "available_seats"; "description"].

(** The query set [get_form] gives the [aircraft] field. *)
Definition TripCreateView_get_form (user : User) : View (list Aircraft.t) :=
  aircraft <- objects Aircraft_objects ;;
  ret (filter (fun a => Aircraft.owner a =? user) aircraft).

Definition TripCreateView_form_valid (user : User) (form : TripForm.t)
  : View Response :=
  messages_add level_success "Sua viagem foi anunciada com sucesso!" ;;;
  Trip_create (fun k =>
    Trip.mk k user (chosen (TripForm.aircraft form))
      (TripForm.origin form) (TripForm.destination form)
      (TripForm.departure_time form) (TripForm.arrival_time form)
      (TripForm.available_seats form) (TripForm.description form)
      default_status) ;;;
  ret (redirect url_dashboard).

Definition TripCreateView (user : option User) (method : Method) (form : TripForm.t)
  : View Response :=
  u <- LoginRequiredMixin user ;;
  aircraft_queryset <- TripCreateView_get_form u ;;
  match method with
  | GET => ret (render "trip_form.html" (ctx_trip_form aircraft_queryset None))
  | POST =>
      if TripForm_is_valid aircraft_queryset form
      then TripCreateView_form_valid u form
      else ret (render "trip_form.html" (ctx_trip_form aircraft_queryset None))
  end.

Definition TripUpdateView_fields : list string :=
  ["aircraft"; "origin"; "destination"; "departure_time"; "arrival_time";
   "available_seats"; "description"; "status"].

Definition TripUpdateView_test_func (user : User) (k : Z) : View bool :=
  trip <- get_object_or_404 k ;;
  ret (user =? Trip.owner trip).

Definition TripUpdateView_form_valid (trip : Trip.t) (form : TripForm.t)
  : View Response :=
  messages_add level_success "Viagem atualizada com sucesso!" ;;;
  Trip_update
    (Trip.mk (Trip.pk trip) (Trip.owner trip) (chosen (TripForm.aircraft form))
       (TripForm.origin form) (TripForm.destination form)
       (TripForm.departure_time form) (TripForm.arrival_time form)
       (TripForm.available_seats form) (TripForm.description form)
       (TripForm.status form)) ;;;
  ret (redirect url_dashboard).

Definition TripUpdateView
    (user : option User) (method : Method) (k : Z) (form : TripForm.t)
  : View Response :=
  u <- LoginRequiredMixin user ;;
  UserPassesTestMixin user (TripUpdateView_test_func u k) ;;;
  trip <- get_object_or_404 k ;;
  aircraft_queryset <- objects Aircraft_objects ;;
  match method with
  | GET => ret (render "trip_form.html" (ctx_trip_form aircraft_queryset (Some trip)))
  | POST =>
      if TripForm_is_valid aircraft_queryset form
      then TripUpdateView_form_valid trip form
      else ret (render "trip_form.html" (ctx_trip_form aircraft_queryset (Some trip)))
  end.

Definition TripDeleteView_test_func (user : User) (k : Z) : View bool :=
  trip <- get_object_or_404 k ;;
  ret (user =? Trip.owner trip).

Definition TripDeleteView_form_valid (trip : Trip.t) : View Response :=
  messages_add level_success "Viagem removida com sucesso." ;;;
  Trip_delete trip ;;;
  ret (redirect url_dashboard).

Definition TripDeleteView (user : option User) (method : Method) (k : Z)
  : View Response :=
  u <- LoginRequiredMixin user ;;
  UserPassesTestMixin user (TripDeleteView_test_func u k) ;;;
  trip <- get_object_or_404 k ;;
  match method with
  | GET => ret (render "trip_confirm_delete.html" (ctx_trip "object" trip))
  | POST => TripDeleteView_form_valid trip
  end.

End Views.

(* ================================================================== *)
(** * What the specification says, in its own terms *)

(** A trip that a listing may show: open and not yet departed. *)
Definition upcoming_open (now : Z) (t : Trip.t) : Prop :=
  Trip.status t = "OPEN" /\ now <= Trip.departure_time t.

(** Ascending by [departure_time]. *)
Definition ascending (a b : Trip.t) : Prop :=
  Trip.departure_time a <= Trip.departure_time b.

(** Upper and lower case of the letters A to Z, letter by letter. *)
Definition letter_cases : list (ascii * ascii) :=
  combine (list_ascii_of_string "ABCDEFGHIJKLMNOPQRSTUVWXYZ")
          (list_ascii_of_string "abcdefghijklmnopqrstuvwxyz").




(** A search parameter is supplied with the text [v]: the query string
    gives [key=v], and does not give the key again after that. *)
Definition supplied (GET : QueryDict) (key v : string) : Prop :=
  exists before after,
    GET = before ++ (key, v) :: after /\ forall v', ~ In (key, v') after.

(** The value of each decimal digit. *)
Definition digit_values : list (ascii * Z) :=
  [("0"%char, 0); ("1"%char, 1); ("2"%char, 2); ("3"%char, 3); ("4"%char, 4);
   ("5"%char, 5); ("6"%char, 6); ("7"%char, 7); ("8"%char, 8); ("9"%char, 9)].

(** A text of digits and the number it writes. *)
Inductive numeral : string -> Z -> Prop :=
| numeral_digit c v :
    In (c, v) digit_values -> numeral (String c "") v
| numeral_more s n c v :
    numeral s n -> In (c, v) digit_values ->
    numeral (s ++ String c "") (10 * n + v).









(** The trips a response lists. *)
Definition listed (r : Response) : list Trip.t :=
  match r with
  | render _ (ctx_trips _ l) => l
  | _ => []
  end.

(** The aircraft a response offers in its form. *)
Definition offered (r : Response) : list Aircraft.t :=
  match r with
  | render _ (ctx_trip_form choices _) => choices
  | _ => []
  end.

(** The bookings of a passenger on a trip. *)
Definition bookings_of (d : DB) (trip : Z) (passenger : User) : list Booking.t :=
  filter (fun b => (Booking.trip b =? trip) && (Booking.passenger b =? passenger))
    (Booking_objects d).

(** A request to the booking view, and a run of such requests one
    after the other. *)
Record BookingRequest := mkBookingRequest {
  req_user : option User;
  req_method : Method;
  req_trip_pk : Z;
  req_form : BookingForm.t
}.

Definition book (r : BookingRequest) (w : World) : Response * World :=
  serve (CreateBookingView (req_user r) (req_method r) (req_trip_pk r) (req_form r)) w.

Definition book_all (rs : list BookingRequest) (w : World) : World :=
  fold_left (fun w r => snd (book r w)) rs w.

(** The filter a search request amounts to, as one test on a row. *)
Definition when_given (o : option string) (test : string -> bool) : bool :=
  if truthy o then test (text_of o) else true.

Definition search_filter (date_lookup : Z -> string -> bool)
    (now : Z) (GET : QueryDict) (t : Trip.t) : bool :=
  open_and_upcoming now t
  && when_given (QueryDict_get GET "origin") (icontains (Trip.origin t))
  && when_given (QueryDict_get GET "destination") (icontains (Trip.destination t))
  && when_given (QueryDict_get GET "date") (date_lookup (Trip.departure_time t)).

(** The date of the request is one the framework refuses. *)
Definition date_refused (GET : QueryDict) : bool :=
  truthy (QueryDict_get GET "date")
  && match parse_date (text_of (QueryDict_get GET "date")) with
     | Some _ => false
     | None => true
     end.

(** A text has a given character; the fields of a text joined again. *)
Fixpoint has (sep : ascii) (s : string) : bool :=
  match s with
  | EmptyString => false
  | String c s' => Ascii.eqb c sep || has sep s'
  end.


(** A text in the shape YYYY-MM-DD whose numbers are no date of the
    calendar from the year 1 on. *)
Definition off_the_calendar (text : string) : Prop :=
  exists ys ms ds y m d,
    text = (ys ++ "-" ++ ms ++ "-" ++ ds)%string
    /\ String.length ys = 4%nat /\ numeral ys y
    /\ (String.length ms <= 2)%nat /\ numeral ms m
    /\ (String.length ds <= 2)%nat /\ numeral ds d
    /\ (y < 1 \/ on_calendar (Date.mk y m d) = false).

(** A text made of letters A to Z, in either case, only. *)
Fixpoint letters_only (s : string) : bool :=
  match s with
  | EmptyString => true
  | String c s' =>
      existsb (fun p => Ascii.eqb c (fst p) || Ascii.eqb c (snd p)) letter_cases
      && letters_only s'
  end.

(** ** Sample data *)

Module Sample.
Definition trip (k : Z) (owner : User) (aircraft : Z) (origin : string)
    (departure : Z) (status : string) : Trip.t :=
  Trip.mk k owner aircraft origin "Recife" departure (departure + 3600) 4 "" status.

Definition natal := trip 1 10 1 "Natal" 2000 "OPEN".
Definition closed := trip 2 10 1 "Natal" 3000 "CLOSED".
Definition departed := trip 3 20 2 "Fortaleza" 500 "OPEN".

Definition db : DB :=
  mkDB [natal; closed; departed] [] [Aircraft.mk 1 10; Aircraft.mk 2 20].

Definition world : World := mkWorld db [].

(** A date lookup for the epoch day only. *)
Definition date_lookup (time : Z) (value : string) : bool :=
  (value =? "1970-01-01")%string && (time / 86400 =? 0).

Definition booking_form : BookingForm.t := BookingForm.mk 2 "Olá" true.

Definition trip_form (aircraft : Z) : TripForm.t :=
  TripForm.mk (Some aircraft) "Natal" "Recife" 5000 9000 3 "" "OPEN" (Some 99) true.

(** Seven open trips to come, stored out of order, and one that is
    closed. *)
Definition seven : DB :=
  mkDB [trip 11 10 1 "Natal" 7000 "OPEN"; trip 12 10 1 "Natal" 3000 "OPEN";
        trip 13 10 1 "Natal" 5000 "OPEN"; trip 14 10 1 "Natal" 1000 "OPEN";
        trip 15 10 1 "Natal" 6000 "OPEN"; trip 16 10 1 "Natal" 1500 "CLOSED";
        trip 17 10 1 "Natal" 2000 "OPEN"; trip 18 10 1 "Natal" 4000 "OPEN"]
    [] [].

(** User 30 submits a booking on trip 1 three times over. *)
Definition requests : list BookingRequest :=
  let r := mkBookingRequest (Some 30) POST 1 booking_form in [r; r; r].
End Sample.

(** What one request to the booking view does, case by case. *)
Inductive BookingOutcome (w : World) (r : BookingRequest) : Response * World -> Prop :=
| booking_login :
    req_user r = None ->
    BookingOutcome w r (redirect url_login, w)
| booking_form_shown u :
    req_user r = Some u ->
    req_method r = GET \/ BookingForm.is_valid (req_form r) = false ->
    BookingOutcome w r (render "create_booking.html" ctx_booking_form, w)
| booking_no_trip u :
    req_user r = Some u -> req_method r = POST ->
    BookingForm.is_valid (req_form r) = true ->
    get_by_pk Trip.pk (req_trip_pk r) (Trip_objects (database w)) = None ->
    BookingOutcome w r (Http404, w)
| booking_own_trip u t :
    req_user r = Some u -> req_method r = POST ->
    BookingForm.is_valid (req_form r) = true ->
    get_by_pk Trip.pk (req_trip_pk r) (Trip_objects (database w)) = Some t ->
    Trip.owner t = u ->
    BookingOutcome w r
      (redirect (url_trip_detail (Trip.pk t)),
       mkWorld (database w)
         (flash w ++ [(level_error,
                       "Você não pode reservar um assento na sua própria viagem.")]))
| booking_duplicate u t :
    req_user r = Some u -> req_method r = POST ->
    BookingForm.is_valid (req_form r) = true ->
    get_by_pk Trip.pk (req_trip_pk r) (Trip_objects (database w)) = Some t ->
    Trip.owner t <> u ->
    bookings_of (database w) (Trip.pk t) u <> [] ->
    BookingOutcome w r
      (redirect (url_trip_detail (Trip.pk t)),
       mkWorld (database w)
         (flash w ++ [(level_warning, "Você já demonstrou interesse nesta viagem.")]))
| booking_created u t :
    req_user r = Some u -> req_method r = POST ->
    BookingForm.is_valid (req_form r) = true ->
    get_by_pk Trip.pk (req_trip_pk r) (Trip_objects (database w)) = Some t ->
    Trip.owner t <> u ->
    bookings_of (database w) (Trip.pk t) u = [] ->
    BookingOutcome w r
      (redirect (url_trip_detail (req_trip_pk r)),
       mkWorld
         (mkDB (Trip_objects (database w))
            (Booking_objects (database w)
             ++ [Booking.mk (next_pk Booking.pk (Booking_objects (database w)))
                   (Trip.pk t) u
                   (BookingForm.seats_requested (req_form r))
                   (BookingForm.message_to_owner (req_form r))])
            (Aircraft_objects (database w)))
         (flash w ++ [(level_success,
                       "Seu interesse foi registrado com sucesso! O proprietário entrará em contato.")])).

(** Running a view on a world, as far as the handlers go. *)
Ltac run_view :=
  cbv beta iota zeta delta
    [serve bind ret raise objects get_object_or_404 messages_add
     handle_no_permission LoginRequiredMixin UserPassesTestMixin
     book req_user req_method req_trip_pk req_form
     CreateBookingView CreateBookingView_form_valid
     CreateBookingView_get_success_url Booking_create exists_
     TripCreateView TripCreateView_get_form TripCreateView_form_valid Trip_create
     TripUpdateView TripUpdateView_test_func TripUpdateView_form_valid Trip_update
     TripDeleteView TripDeleteView_test_func TripDeleteView_form_valid Trip_delete
     fst snd];
  cbn [database flash].

(** ** Further notions for the views as a whole *)

(** Descending by [departure_time], the order of the dashboard. *)
Definition descending (a b : Trip.t) : Prop :=
  Trip.departure_time b <= Trip.departure_time a.

(** The key and the owner of every stored trip, in storage order. *)
Definition trip_identities (d : DB) : list (Z * User) :=
  map (fun t => (Trip.pk t, Trip.owner t)) (Trip_objects d).

(** No stored booking is held by the owner of the trip it is for. *)
Definition no_self_booking (d : DB) : Prop :=
  forall b t,
    In b (Booking_objects d) ->
    get_by_pk Trip.pk (Booking.trip b) (Trip_objects d) = Some t ->
    Trip.owner t <> Booking.passenger b.

(** The values a trip form carries are those of a stored trip. *)
Definition holds_form (t : Trip.t) (form : TripForm.t) : Prop :=
  TripForm.aircraft form = Some (Trip.aircraft t)
  /\ Trip.origin t = TripForm.origin form
  /\ Trip.destination t = TripForm.destination form
  /\ Trip.departure_time t = TripForm.departure_time form
  /\ Trip.arrival_time t = TripForm.arrival_time form
  /\ Trip.available_seats t = TripForm.available_seats form
  /\ Trip.description t = TripForm.description form.


Module Cases.
(** A booking form that does not validate. *)
Definition invalid_form : BookingForm.t := BookingForm.mk 0 "" false.

(** The sample store where user 30 has a booking on trip 1, and the
    one where user 10, the owner of trip 1, has one. *)
Definition booked_world : World :=
  mkWorld (mkDB (Trip_objects Sample.db) [Booking.mk 1 1 30 2 "Olá"]
             (Aircraft_objects Sample.db)) [].

Definition owner_booked_world : World :=
  mkWorld (mkDB (Trip_objects Sample.db) [Booking.mk 1 1 10 2 "Olá"]
             (Aircraft_objects Sample.db)) [].

End Cases.

Module Scenario.
(** The sample store with trip 1 closed, departed long ago and full. *)
Definition closed_natal : Trip.t :=
  Trip.mk 1 10 2 "Mossoró" "Natal" (-5000) (-4000) 0 "lotado" "CLOSED".

Definition closed_world : World :=
  mkWorld (mkDB [closed_natal; Sample.closed; Sample.departed] []
             [Aircraft.mk 1 10; Aircraft.mk 2 20]) [].

(** User 30 asks for nine seats. *)
Definition request : BookingRequest :=
  mkBookingRequest (Some 30) POST 1 (BookingForm.mk 9 "nove lugares" true).

(** Requests by several users, the owner of trip 1 among them. *)
Definition requests : list BookingRequest :=
  [mkBookingRequest (Some 10) POST 1 Sample.booking_form;
   mkBookingRequest (Some 30) POST 1 Sample.booking_form;
   mkBookingRequest (Some 20) POST 3 Sample.booking_form;
   mkBookingRequest (Some 20) POST 1 Sample.booking_form;
   mkBookingRequest None POST 1 Sample.booking_form;
   mkBookingRequest (Some 30) GET 2 Sample.booking_form;
   mkBookingRequest (Some 30) POST 1 Sample.booking_form].
End Scenario.







(** The remaining views and the store, unfolded. *)
Ltac run_more :=
  cbv beta iota zeta delta
    [HomePageView HomePageView_get_context_data TripListView
     TripDetailView DashboardView DashboardView_get_queryset paginate_queryset];
  run_view.

(* ================================================================== *)
(** * Query sets: ordering and membership *)

Section OrderBy.
Context {A : Type} (key : A -> Z).

Let le_key (a b : A) : Prop := key a <= key b.

Lemma insert_by_perm (x : A) (l : list A) :
  Permutation (insert_by key x l) (x :: l).
Proof.
  induction l as [|y l IH]; simpl.
  - apply Permutation_refl.
  - destruct (key x <=? key y).
    + apply Permutation_refl.
    + apply perm_trans with (y :: x :: l).
      * apply perm_skip, IH.
      * apply perm_swap.
Qed.

Lemma order_by_perm (l : list A) : Permutation (order_by key l) l.
Proof.
  induction l as [|x l IH]; simpl.
  - apply perm_nil.
  - apply perm_trans with (x :: order_by key l).
    + apply insert_by_perm.
    + apply perm_skip, IH.
Qed.

Lemma order_by_In (l : list A) (x : A) : In x (order_by key l) <-> In x l.
Proof.
  split; apply Permutation_in.
  - apply order_by_perm.
  - apply Permutation_sym, order_by_perm.
Qed.

Lemma insert_by_sorted (x : A) (l : list A) :
  StronglySorted le_key l -> StronglySorted le_key (insert_by key x l).
Proof.
  induction 1 as [|y l Hs IH Hall]; simpl.
  - constructor; constructor.
  - destruct (key x <=? key y) eqn:E.
    + apply Z.leb_le in E.
      constructor; [constructor; assumption|].
      constructor; [exact E|].
      rewrite Forall_forall in *. intros z Hz.
      unfold le_key in *. specialize (Hall z Hz). lia.
    + apply Z.leb_gt in E.
      constructor; [exact IH|].
      rewrite Forall_forall in *. intros z Hz.
      apply (Permutation_in _ (insert_by_perm x l)) in Hz.
      destruct Hz as [<-|Hz]; [unfold le_key; lia | auto].
Qed.

Lemma order_by_sorted (l : list A) : StronglySorted le_key (order_by key l).
Proof.
  induction l as [|x l IH]; simpl.
  - constructor.
  - apply insert_by_sorted, IH.
Qed.

End OrderBy.

Lemma firstn_In (A : Type) (n : nat) (l : list A) (x : A) :
  In x (firstn n l) -> In x l.
Proof.
  intro H. rewrite <- (firstn_skipn n l). apply in_or_app. left. exact H.
Qed.

Lemma skipn_In (A : Type) (n : nat) (l : list A) (x : A) :
  In x (skipn n l) -> In x l.
Proof.
  intro H. rewrite <- (firstn_skipn n l). apply in_or_app. right. exact H.
Qed.

Lemma sorted_prefix_below_rest (A : Type) (R : A -> A -> Prop) (n : nat) (l : list A) :
  StronglySorted R l ->
  forall x y, In x (firstn n l) -> In y (skipn n l) -> R x y.
Proof.
  intros Hs. revert n.
  induction Hs as [|a l Hs IH Hall]; intros n x y Hx Hy.
  - rewrite firstn_nil in Hx. destruct Hx.
  - destruct n as [|n]; simpl in *.
    + destruct Hx.
    + destruct Hx as [<-|Hx].
      * rewrite Forall_forall in Hall. apply Hall.
        apply (skipn_In n). exact Hy.
      * eapply IH; eassumption.
Qed.

Lemma sorted_firstn (A : Type) (R : A -> A -> Prop) (n : nat) (l : list A) :
  StronglySorted R l -> StronglySorted R (firstn n l).
Proof.
  intros Hs. revert n.
  induction Hs as [|a l Hs IH Hall]; intros [|n]; simpl; try constructor.
  - apply IH.
  - rewrite Forall_forall in *. intros z Hz. apply Hall.
    apply (firstn_In n). exact Hz.
Qed.

Lemma filter_filter (A : Type) (p q : A -> bool) (l : list A) :
  filter q (filter p l) = filter (fun x => p x && q x) l.
Proof.
  induction l as [|x l IH]; simpl; [reflexivity|].
  destruct (p x) eqn:Ep; simpl.
  - destruct (q x); simpl; rewrite IH; reflexivity.
  - exact IH.
Qed.

(* ================================================================== *)
(** * Field lookups *)





(* ================================================================== *)
(** * The calendar *)












(* ================================================================== *)
(** * Reading a date *)

Lemma digit_of_table (c : ascii) (v : Z) :
  digit_of c = Some v <-> In (c, v) digit_values.
Proof.
  split.
  - destruct c as [[] [] [] [] [] [] [] []]; cbv; intro H; try discriminate;
      inversion H; subst; auto 12.
  - intro H. cbn in H.
    repeat (destruct H as [H|H]; [inversion H; reflexivity|]). destruct H.
Qed.

Lemma digit_not_hyphen (c : ascii) (v : Z) :
  In (c, v) digit_values -> Ascii.eqb c "-" = false.
Proof.
  intro H. cbn in H.
  repeat (destruct H as [H|H]; [inversion H; reflexivity|]). destruct H.
Qed.

Lemma read_digits_app (s t : string) (acc : Z) :
  read_digits acc (s ++ t) =
  match read_digits acc s with
  | Some m => read_digits m t
  | None => None
  end.
Proof.
  revert acc. induction s as [|c s IH]; intro acc; cbn; [reflexivity|].
  destruct (digit_of c); [apply IH | reflexivity].
Qed.

Lemma numeral_nonempty (s : string) (n : Z) : numeral s n -> s <> "".
Proof.
  destruct 1 as [c v _ | s n c v _ _]; [discriminate|].
  destruct s; discriminate.
Qed.

Lemma numeral_read (s : string) (n : Z) : numeral s n -> read_number s = Some n.
Proof.
  intro H.
  assert (R : read_digits 0 s = Some n).
  { induction H as [c v Hc | s n c v Hs IH Hc].
    - cbn. apply digit_of_table in Hc. rewrite Hc. reflexivity.
    - rewrite read_digits_app, IH. cbn. apply digit_of_table in Hc. rewrite Hc.
      reflexivity. }
  apply numeral_nonempty in H. destruct s; [contradiction | exact R].
Qed.

Lemma append_assoc (a b c : string) : ((a ++ b) ++ c = a ++ (b ++ c))%string.
Proof. induction a as [|x a IH]; cbn; [reflexivity | now rewrite IH]. Qed.

Lemma append_nil_r (a : string) : (a ++ "")%string = a.
Proof. induction a as [|x a IH]; cbn; [reflexivity | now rewrite IH]. Qed.

Lemma read_digits_numeral (s p : string) (m n : Z) :
  numeral p m -> read_digits m s = Some n -> numeral (p ++ s) n.
Proof.
  revert p m. induction s as [|c s IH]; intros p m Hp H; cbn in H.
  - inversion H. subst. rewrite append_nil_r. exact Hp.
  - destruct (digit_of c) as [v|] eqn:Hc; [|discriminate].
    apply digit_of_table in Hc.
    replace (p ++ String c s)%string with ((p ++ String c "") ++ s)%string
      by (rewrite append_assoc; reflexivity).
    apply (IH _ (10 * m + v)); [constructor; assumption | exact H].
Qed.

Lemma read_numeral (s : string) (n : Z) : read_number s = Some n -> numeral s n.
Proof.
  destruct s as [|c s]; [discriminate|]. cbn.
  destruct (digit_of c) as [v|] eqn:Hc; [|discriminate].
  apply digit_of_table in Hc. intro H.
  change (String c s) with (String c "" ++ s)%string.
  apply read_digits_numeral with (m := v); [constructor; exact Hc|].
  rewrite <- H. f_equal; lia.
Qed.

Lemma read_number_spec (s : string) (n : Z) :
  read_number s = Some n <-> numeral s n.
Proof. split; [apply read_numeral | apply numeral_read]. Qed.

Lemma has_app sep (a b : string) : has sep (a ++ b) = has sep a || has sep b.
Proof. induction a as [|c a IH]; cbn; [reflexivity|]. now rewrite IH, orb_assoc. Qed.

Lemma numeral_no_hyphen (s : string) (n : Z) : numeral s n -> has "-" s = false.
Proof.
  induction 1 as [c v Hc | s n c v Hs IH Hc].
  - cbn. rewrite (@digit_not_hyphen _ _ Hc). reflexivity.
  - rewrite has_app, IH. cbn. rewrite (@digit_not_hyphen _ _ Hc). reflexivity.
Qed.


Lemma split_on_plain sep (a : string) :
  has sep a = false -> split_on sep a = [a].
Proof.
  induction a as [|c a IH]; cbn; [reflexivity|].
  destruct (Ascii.eqb c sep); cbn; [discriminate|].
  intro H. rewrite (IH H). reflexivity.
Qed.

Lemma split_on_field sep (a rest : string) :
  has sep a = false ->
  split_on sep (a ++ String sep rest) = a :: split_on sep rest.
Proof.
  induction a as [|c a IH]; cbn.
  - intros _. rewrite Ascii.eqb_refl. reflexivity.
  - destruct (Ascii.eqb c sep); cbn; [discriminate|].
    intro H. rewrite (IH H). reflexivity.
Qed.




(* ================================================================== *)
(** * Letters and their case *)









(* ================================================================== *)
(** * The query string *)

Lemma QueryDict_get_none (q : QueryDict) (key : string) :
  QueryDict_get q key = None <-> (forall v, ~ In (key, v) q).
Proof.
  induction q as [|[k x] q IH]; cbn [QueryDict_get].
  - split; [intros _ v [] | reflexivity].
  - destruct (QueryDict_get q key) as [v'|].
    + split; [discriminate|]. intro H. exfalso.
      assert (Hsome : Some v' <> None) by discriminate.
      apply Hsome, IH. intros v Hv. apply (H v). right. exact Hv.
    + destruct (String.eqb_spec k key) as [->|Hk].
      * split; [discriminate|]. intro H. elim (H x). left. reflexivity.
      * split; [|reflexivity]. intros _ v [E|Hv].
        -- inversion E. contradiction.
        -- revert Hv. apply IH. reflexivity.
Qed.

Lemma QueryDict_get_supplied (q : QueryDict) (key v : string) :
  QueryDict_get q key = Some v <-> supplied q key v.
Proof.
  unfold supplied. induction q as [|[k x] q IH]; cbn [QueryDict_get].
  - split; [discriminate|]. intros (before & after & E & _).
    destruct before; discriminate.
  - split.
    + destruct (QueryDict_get q key) as [v'|] eqn:Hq.
      * intro E. inversion E. subst v'.
        destruct (proj1 IH eq_refl) as (before & after & -> & Hafter).
        exists ((k, x) :: before), after. split; [reflexivity | exact Hafter].
      * destruct (String.eqb_spec k key) as [->|Hk]; [|discriminate].
        intro E. inversion E. subst x.
        exists [], q. split; [reflexivity|]. apply QueryDict_get_none. exact Hq.
    + intros (before & after & E & Hafter). destruct before as [|b before].
      * cbn in E. inversion E. subst.
        apply QueryDict_get_none in Hafter. rewrite Hafter, String.eqb_refl.
        reflexivity.
      * cbn in E. inversion E. subst.
        assert (Hq : QueryDict_get (before ++ (key, v) :: after) key = Some v).
        { apply IH. exists before, after. split; [reflexivity | exact Hafter]. }
        rewrite Hq. reflexivity.
Qed.

(* ================================================================== *)
(** * The filters of a search *)


Lemma open_and_upcoming_spec (now : Z) (t : Trip.t) :
  open_and_upcoming now t = true <-> upcoming_open now t.
Proof.
  unfold open_and_upcoming, upcoming_open.
  rewrite andb_true_iff, String.eqb_eq, Z.leb_le. reflexivity.
Qed.






(** The query set of a search is the table under [search_filter],
    ordered, unless the date is one the framework refuses. *)
Lemma get_queryset_run (date_lookup : Z -> string -> bool)
    (now : Z) (GET : QueryDict) (w : World) :
  TripListView_get_queryset date_lookup now GET w =
  if date_refused GET
  then (Abort ValidationError, w)
  else (Ok (order_by Trip.departure_time
              (filter (search_filter date_lookup now GET) (Trip_objects (database w)))),
        w).
Proof.
  unfold TripListView_get_queryset, filter_departure_time_date, date_refused,
    bind, objects, ret, raise.
  assert (E : forall (l : list Trip.t) (b1 b2 b3 : bool) (p1 p2 p3 : Trip.t -> bool),
            (if b3 then filter p3 (if b2 then filter p2 (if b1 then filter p1
               (filter (open_and_upcoming now) l) else filter (open_and_upcoming now) l)
               else (if b1 then filter p1 (filter (open_and_upcoming now) l)
                     else filter (open_and_upcoming now) l))
             else (if b2 then filter p2 (if b1 then filter p1
               (filter (open_and_upcoming now) l) else filter (open_and_upcoming now) l)
               else (if b1 then filter p1 (filter (open_and_upcoming now) l)
                     else filter (open_and_upcoming now) l)))
            = filter (fun t => open_and_upcoming now t
                               && (if b1 then p1 t else true)
                               && (if b2 then p2 t else true)
                               && (if b3 then p3 t else true)) l).
  { intros l [] [] [] p1 p2 p3; rewrite ?filter_filter; apply filter_ext; intro t;
      rewrite ?andb_true_r, ?andb_assoc; reflexivity. }
  unfold search_filter, when_given.
  destruct (truthy (QueryDict_get GET "date")) eqn:Td; cbn [andb].
  - destruct (parse_date (text_of (QueryDict_get GET "date"))) as [d|]; [|reflexivity].
    f_equal. f_equal. f_equal.
    rewrite <- (E _ _ _ true _ _
                  (fun t => date_lookup (Trip.departure_time t)
                              (text_of (QueryDict_get GET "date")))).
    reflexivity.
  - f_equal. f_equal. f_equal.
    rewrite <- (E _ _ _ false _ _ (fun _ => true)). reflexivity.
Qed.

(* ================================================================== *)
(** * Pagination *)





(* ================================================================== *)
(** * The public listings *)

Lemma HomePageView_run (now : Z) (w : World) :
  serve (HomePageView now) w =
  (render "index.html"
     (ctx_trips "upcoming_trips"
        (firstn 5 (order_by Trip.departure_time
                     (filter (open_and_upcoming now) (Trip_objects (database w)))))),
   w).
Proof. reflexivity. Qed.

(** Whatever page is asked for, a listing shows rows of the query set
    only. *)
Lemma TripListView_listed (date_lookup : Z -> string -> bool)
    (now : Z) (GET : QueryDict) (page : PageArg) (w : World) (t : Trip.t) :
  In t (listed (fst (serve (TripListView date_lookup now GET page) w))) ->
  In t (Trip_objects (database w)) /\ search_filter date_lookup now GET t = true.
Proof.
  unfold serve, TripListView, bind. rewrite get_queryset_run.
  set (qs := order_by _ _).
  assert (Hqs : forall x, In x qs ->
            In x (Trip_objects (database w)) /\ search_filter date_lookup now GET x = true).
  { intros x Hx. apply order_by_In in Hx. apply filter_In in Hx. exact Hx. }
  assert (Hpage : forall n x, In x (Paginator_page paginate_by qs n) -> In x qs).
  { intros n x Hx. unfold Paginator_page in Hx.
    apply firstn_In in Hx. apply skipn_In in Hx. exact Hx. }
  destruct (date_refused GET); [simpl; intro H; now destruct H|].
  destruct page as [| |n|]; simpl; try (intro H; now destruct H).
  - intro H. eapply Hqs, Hpage, H.
  - intro H. eapply Hqs, Hpage, H.
  - destruct ((1 <=? n) && _); simpl; intro H.
    + eapply Hqs, Hpage, H.
    + destruct H.
Qed.


(** C6: for every state of the store, the home page shows the first
    five, in ascending order of departure_time, of the trips that are
    OPEN and depart at or after now (all of them when there are fewer):
    every trip it leaves out departs no earlier than each one shown; and
    the store and the messages are left as they were. *)
Theorem C6_home_five_soonest :
  forall (now : Z) (w : World),
  exists shown rest,
    serve (HomePageView now) w =
      (render "index.html" (ctx_trips "upcoming_trips" shown), w)
    /\ (forall t, In t (shown ++ rest) <->
                  In t (Trip_objects (database w)) /\ upcoming_open now t)
    /\ Permutation (shown ++ rest)
         (filter (open_and_upcoming now) (Trip_objects (database w)))
    /\ List.length shown = Nat.min 5 (List.length (shown ++ rest))
    /\ StronglySorted ascending shown
    /\ (forall x y, In x shown -> In y rest -> ascending x y).
Proof.
  intros now w.
  set (qs := order_by Trip.departure_time
               (filter (open_and_upcoming now) (Trip_objects (database w)))).
  exists (firstn 5 qs), (skipn 5 qs).
  rewrite firstn_skipn.
  split; [apply HomePageView_run|].
  split; [|split; [|split; [|split]]].
  - intro t. unfold qs. rewrite order_by_In, filter_In, open_and_upcoming_spec.
    reflexivity.
  - apply order_by_perm.
  - apply length_firstn.
  - apply sorted_firstn. apply order_by_sorted.
  - apply sorted_prefix_below_rest. apply order_by_sorted.
Qed.

(** C7: a trip whose status is not OPEN, or whose departure_time is
    before now, is listed neither by the home page nor by the search
    view, whatever the search parameters and the page asked for. *)
Theorem C7_closed_or_departed_never_listed :
  forall (date_lookup : Z -> string -> bool) (now : Z) (w : World)
         (GET : QueryDict) (page : PageArg) (t : Trip.t),
    Trip.status t <> "OPEN" \/ Trip.departure_time t < now ->
    ~ In t (listed (fst (serve (HomePageView now) w)))
    /\ ~ In t (listed (fst (serve (TripListView date_lookup now GET page) w))).
Proof.
  intros date_lookup now w GET page t Hbad.
  assert (Hno : open_and_upcoming now t = false).
  { apply not_true_is_false. rewrite open_and_upcoming_spec.
    unfold upcoming_open. intros [Hs Hd]. destruct Hbad; [contradiction | lia]. }
  split.
  - rewrite HomePageView_run. cbn [fst listed]. intro H.
    apply firstn_In in H. apply order_by_In in H. apply filter_In in H.
    destruct H as [_ H]. congruence.
  - intro H. apply TripListView_listed in H. destruct H as [_ H].
    unfold search_filter in H. rewrite Hno in H. discriminate.
Qed.

(** C9: a search parameter (origin, destination or date) given with the
    empty string is treated as one that is not given: two requests that
    differ only in that the first gives the parameter as the empty string
    and the second leaves it out have the same query set and get the
    same response. *)
Theorem C9_empty_parameter_is_absent :
  forall (date_lookup : Z -> string -> bool) (now : Z) (w : World)
         (key : string) (GET_empty GET_absent : QueryDict) (page : PageArg),
    In key ["origin"; "destination"; "date"] ->
    QueryDict_get GET_empty key = Some "" ->
    QueryDict_get GET_absent key = None ->
    (forall k, k <> key -> QueryDict_get GET_empty k = QueryDict_get GET_absent k) ->
    TripListView_get_queryset date_lookup now GET_empty w
      = TripListView_get_queryset date_lookup now GET_absent w
    /\ serve (TripListView date_lookup now GET_empty page) w
       = serve (TripListView date_lookup now GET_absent page) w.
Proof.
  intros date_lookup now w key G1 G2 page Hkey Hempty Habsent Hrest.
  assert (E : TripListView_get_queryset date_lookup now G1 w
              = TripListView_get_queryset date_lookup now G2 w).
  { rewrite !get_queryset_run. unfold date_refused, search_filter.
    simpl in Hkey.
    destruct Hkey as [<-|[<-|[<-|[]]]];
      rewrite ?Hempty, ?Habsent;
      rewrite ?(Hrest "origin"), ?(Hrest "destination"), ?(Hrest "date")
        by discriminate;
      reflexivity. }
  split; [exact E|].
  unfold serve, TripListView, bind. rewrite E. reflexivity.
Qed.

(* ================================================================== *)
(** * Booking *)

Lemma get_by_pk_key (A : Type) (pk_of : A -> Z) (k : Z) (l : list A) (x : A) :
  get_by_pk pk_of k l = Some x -> pk_of x = k /\ In x l.
Proof.
  unfold get_by_pk. intro H. apply find_some in H. destruct H as [Hin Hk].
  apply Z.eqb_eq in Hk. split; assumption.
Qed.

Lemma existsb_filter_nil (A : Type) (p : A -> bool) (l : list A) :
  existsb p l = false <-> filter p l = [].
Proof.
  induction l as [|x l IH]; simpl.
  - split; reflexivity.
  - destruct (p x); simpl.
    + split; discriminate.
    + exact IH.
Qed.

Lemma existsb_filter_some (A : Type) (p : A -> bool) (l : list A) :
  existsb p l = true <-> filter p l <> [].
Proof.
  rewrite <- existsb_filter_nil. destruct (existsb p l); split; congruence.
Qed.

Lemma book_outcome (w : World) (r : BookingRequest) : BookingOutcome w r (book r w).
Proof.
  destruct r as [user method k form]. run_view.
  destruct user as [u|]; [|now apply booking_login].
  destruct method; [eapply booking_form_shown; simpl; eauto|].
  destruct (BookingForm.is_valid form) eqn:Hvalid;
    [|eapply booking_form_shown; simpl; eauto].
  destruct (get_by_pk Trip.pk k (Trip_objects (database w))) as [t|] eqn:Hget;
    run_view; [|eapply booking_no_trip; simpl; eauto].
  destruct (Trip.owner t =? u) eqn:Howner; run_view.
  - apply Z.eqb_eq in Howner. eapply booking_own_trip; simpl; eauto.
  - apply Z.eqb_neq in Howner.
    destruct (existsb _ (Booking_objects (database w))) eqn:Hdup; run_view.
    + apply existsb_filter_some in Hdup. eapply booking_duplicate; simpl; eauto.
    + apply existsb_filter_nil in Hdup.
      apply (@booking_created w (mkBookingRequest (Some u) POST k form) u t);
        simpl; auto.
Qed.

Lemma bookings_of_app (d : DB) (row : Booking.t) (T : Z) (U : User) :
  bookings_of (mkDB (Trip_objects d) (Booking_objects d ++ [row]) (Aircraft_objects d)) T U
  = bookings_of d T U
    ++ (if (Booking.trip row =? T) && (Booking.passenger row =? U) then [row] else []).
Proof.
  unfold bookings_of. cbn [Booking_objects]. rewrite filter_app. reflexivity.
Qed.

(** One request keeps the bookings of a passenger on a trip at one at
    most. *)
Lemma book_keeps_at_most_one (w : World) (r : BookingRequest) (T : Z) (U : User) :
  (List.length (bookings_of (database w) T U) <= 1)%nat ->
  (List.length (bookings_of (database (snd (book r w))) T U) <= 1)%nat.
Proof.
  intro Hle. destruct (book_outcome w r); cbn [snd database]; try exact Hle.
  rewrite bookings_of_app. cbn [Booking.trip Booking.passenger].
  destruct ((Trip.pk t =? T) && (u =? U)) eqn:E.
  - apply andb_true_iff in E. destruct E as [E1 E2].
    apply Z.eqb_eq in E1, E2. subst T U.
    match goal with H : bookings_of _ _ _ = [] |- _ => rewrite H end.
    simpl. lia.
  - rewrite app_nil_r. exact Hle.
Qed.

Lemma book_all_keeps_at_most_one (rs : list BookingRequest) (w : World) (T : Z) (U : User) :
  (List.length (bookings_of (database w) T U) <= 1)%nat ->
  (List.length (bookings_of (database (book_all rs w)) T U) <= 1)%nat.
Proof.
  revert w. induction rs as [|r rs IH]; intros w Hle; simpl.
  - exact Hle.
  - apply IH. apply book_keeps_at_most_one. exact Hle.
Qed.

(** C1, as the code has it: if a passenger U has at most one booking
    on a trip T, then after any run of requests to the booking view U
    still has at most one booking on T.  A request by U on T adds a row
    only when U had no booking on T before it; when U had one, nothing
    is created, and a submission whose form validates, by a U who is
    not the owner of T, is answered with the warning and a redirect to
    the trip.  A GET, or a submission whose form does not validate, is
    answered with the form, without warning or redirect. *)
Theorem C1_at_most_one_booking :
  forall (w : World) (U : User) (T : Z) (requests : list BookingRequest),
    (List.length (bookings_of (database w) T U) <= 1)%nat ->
    (List.length (bookings_of (database (book_all requests w)) T U) <= 1)%nat
    /\ (forall (w0 : World) (method : Method) (form : BookingForm.t),
          let outcome := serve (CreateBookingView (Some U) method T form) w0 in
          (Booking_objects (database (snd outcome)) <> Booking_objects (database w0) ->
           bookings_of (database w0) T U = [])
          /\ (bookings_of (database w0) T U <> [] ->
              database (snd outcome) = database w0)
          /\ (bookings_of (database w0) T U <> [] ->
              method = POST ->
              BookingForm.is_valid form = true ->
              forall trip,
                get_by_pk Trip.pk T (Trip_objects (database w0)) = Some trip ->
                Trip.owner trip <> U ->
                outcome =
                  (redirect (url_trip_detail T),
                   mkWorld (database w0)
                     (flash w0
                      ++ [(level_warning,
                           "Você já demonstrou interesse nesta viagem.")])))
          /\ (method = GET \/ BookingForm.is_valid form = false ->
              outcome = (render "create_booking.html" ctx_booking_form, w0))).
Proof.
  intros w U T requests Hle.
  split; [apply book_all_keeps_at_most_one; exact Hle|].
  intros w0 method form outcome.
  assert (Hadd : Booking_objects (database (snd outcome)) <> Booking_objects (database w0) ->
                 bookings_of (database w0) T U = []).
  { subst outcome.
    change (serve (CreateBookingView (Some U) method T form) w0)
      with (book (mkBookingRequest (Some U) method T form) w0).
    destruct (book_outcome w0 (mkBookingRequest (Some U) method T form));
      cbn [snd database req_user req_trip_pk] in *;
      intro Hneq; try (now elim Hneq).
    match goal with H : Some _ = Some _ |- _ => inversion H; subst end.
    match goal with H : get_by_pk _ _ _ = Some _ |- _ =>
      apply get_by_pk_key in H; destruct H as [<- _] end.
    assumption. }
  split; [exact Hadd|]. split; [|split].
  - intro Hsome. subst outcome.
    change (serve (CreateBookingView (Some U) method T form) w0)
      with (book (mkBookingRequest (Some U) method T form) w0).
    destruct (book_outcome w0 (mkBookingRequest (Some U) method T form));
      cbn [snd database req_user req_trip_pk] in *; try reflexivity.
    match goal with H : Some _ = Some _ |- _ => inversion H; subst end.
    match goal with H : get_by_pk _ _ _ = Some _ |- _ =>
      apply get_by_pk_key in H; destruct H as [<- _] end.
    contradiction.
  - intros Hsome -> Hvalid trip Hget Howner. subst outcome.
    run_view. rewrite Hvalid, Hget. run_view.
    apply Z.eqb_neq in Howner. rewrite Howner.
    destruct (get_by_pk_key _ _ _ Hget) as [Hk _]. rewrite Hk.
    apply existsb_filter_some in Hsome. unfold bookings_of in Hsome.
    run_view. rewrite Hsome. reflexivity.
  - intro Hshown. subst outcome. run_view.
    destruct Hshown as [-> | Hinvalid]; [reflexivity|].
    destruct method; [reflexivity|]. rewrite Hinvalid. reflexivity.
Qed.

(** C3, as the code has it: when the requester U is the owner of the
    trip T, no request of U to the booking view on T changes the store,
    so no Booking row is created; a booking submitted by U on T with a
    form that validates is answered with the self-booking error and a
    redirect to the detail page of T; one whose form does not validate
    is answered with the form again, without error message or
    redirect. *)
Theorem C3_owner_cannot_book :
  forall (w : World) (U : User) (T : Trip.t),
    get_by_pk Trip.pk (Trip.pk T) (Trip_objects (database w)) = Some T ->
    Trip.owner T = U ->
    (forall (method : Method) (form : BookingForm.t),
        database (snd (serve (CreateBookingView (Some U) method (Trip.pk T) form) w))
        = database w)
    /\ (forall (form : BookingForm.t),
          BookingForm.is_valid form = true ->
          serve (CreateBookingView (Some U) POST (Trip.pk T) form) w =
            (redirect (url_trip_detail (Trip.pk T)),
             mkWorld (database w)
               (flash w
                ++ [(level_error,
                     "Você não pode reservar um assento na sua própria viagem.")])))
    /\ (forall (form : BookingForm.t),
          BookingForm.is_valid form = false ->
          serve (CreateBookingView (Some U) POST (Trip.pk T) form) w =
            (render "create_booking.html" ctx_booking_form, w)).
Proof.
  intros w U T Hget Howner. apply Z.eqb_eq in Howner. split; [|split].
  - intros method form. run_view.
    destruct method; [reflexivity|].
    destruct (BookingForm.is_valid form); [|reflexivity].
    rewrite Hget. run_view. rewrite Howner. reflexivity.
  - intros form Hvalid. run_view.
    rewrite Hvalid, Hget. run_view. rewrite Howner. reflexivity.
  - intros form Hinvalid. run_view. rewrite Hinvalid. reflexivity.
Qed.

(** C4, as the code has it: for every booking submitted (a POST), the
    checks run in the order: the requester is authenticated (else the
    redirect to the login page, whether or not the trip exists); the
    form validates (else the form is shown again); the trip exists
    (else NotFound); the requester is not the owner (else the error and
    a redirect); the requester has no booking on the trip (else the
    warning and a redirect).  The first check that fails decides the
    outcome, and only when all pass is a Booking created. *)
Theorem C4_checks_in_order :
  forall (w : World) (user : option User) (k : Z) (form : BookingForm.t),
    let outcome := serve (CreateBookingView user POST k form) w in
    let found := get_by_pk Trip.pk k (Trip_objects (database w)) in
    (user = None -> outcome = (redirect url_login, w))
    /\ (forall u, user = Some u ->
          BookingForm.is_valid form = false ->
          outcome = (render "create_booking.html" ctx_booking_form, w))
    /\ (forall u, user = Some u ->
          BookingForm.is_valid form = true ->
          found = None ->
          outcome = (Http404, w))
    /\ (forall u t, user = Some u ->
          BookingForm.is_valid form = true ->
          found = Some t ->
          Trip.owner t = u ->
          outcome =
            (redirect (url_trip_detail k),
             mkWorld (database w)
               (flash w
                ++ [(level_error,
                     "Você não pode reservar um assento na sua própria viagem.")])))
    /\ (forall u t, user = Some u ->
          BookingForm.is_valid form = true ->
          found = Some t ->
          Trip.owner t <> u ->
          bookings_of (database w) k u <> [] ->
          outcome =
            (redirect (url_trip_detail k),
             mkWorld (database w)
               (flash w
                ++ [(level_warning, "Você já demonstrou interesse nesta viagem.")])))
    /\ (forall u t, user = Some u ->
          BookingForm.is_valid form = true ->
          found = Some t ->
          Trip.owner t <> u ->
          bookings_of (database w) k u = [] ->
          exists row,
            outcome =
              (redirect (url_trip_detail k),
               mkWorld
                 (mkDB (Trip_objects (database w))
                    (Booking_objects (database w) ++ [row])
                    (Aircraft_objects (database w)))
                 (flash w
                  ++ [(level_success,
                       "Seu interesse foi registrado com sucesso! O proprietário entrará em contato.")]))
            /\ Booking.trip row = k
            /\ Booking.passenger row = u).
Proof.
  intros w user k form outcome found. subst outcome found.
  assert (Hkey : forall t, get_by_pk Trip.pk k (Trip_objects (database w)) = Some t ->
                           Trip.pk t = k).
  { intros t Ht. apply get_by_pk_key in Ht. tauto. }
  split; [|split; [|split; [|split; [|split]]]].
  - intros ->. reflexivity.
  - intros u -> Hv. run_view. rewrite Hv. reflexivity.
  - intros u -> Hv Hf. run_view. rewrite Hv, Hf. reflexivity.
  - intros u t -> Hv Hf Ho. apply Z.eqb_eq in Ho.
    run_view. rewrite Hv, Hf. run_view. rewrite Ho, (Hkey _ Hf). reflexivity.
  - intros u t -> Hv Hf Ho Hb. apply Z.eqb_neq in Ho.
    apply existsb_filter_some in Hb.
    run_view. rewrite Hv, Hf. run_view. rewrite Ho, (Hkey _ Hf).
    run_view. rewrite Hb. reflexivity.
  - intros u t -> Hv Hf Ho Hb. apply Z.eqb_neq in Ho.
    apply existsb_filter_nil in Hb.
    run_view. rewrite Hv, Hf. run_view. rewrite Ho, (Hkey _ Hf).
    run_view. rewrite Hb. run_view.
    eexists. split; [reflexivity|]. split; reflexivity.
Qed.

(* ================================================================== *)
(** * The owner's panel *)

(** C2: when an authenticated user U who is not the owner of the trip
    T asks to update or to delete T, with either method and whatever is
    submitted, the answer is Forbidden and the store and the messages
    are as before: T is still the row found under its key. *)
Theorem C2_only_the_owner_edits_or_deletes :
  forall (w : World) (U : User) (T : Trip.t) (method : Method) (form : TripForm.t),
    get_by_pk Trip.pk (Trip.pk T) (Trip_objects (database w)) = Some T ->
    U <> Trip.owner T ->
    (serve (TripUpdateView (Some U) method (Trip.pk T) form) w = (PermissionDenied, w)
     /\ get_by_pk Trip.pk (Trip.pk T)
          (Trip_objects
             (database (snd (serve (TripUpdateView (Some U) method (Trip.pk T) form) w))))
        = Some T)
    /\ (serve (TripDeleteView (Some U) method (Trip.pk T)) w = (PermissionDenied, w)
        /\ get_by_pk Trip.pk (Trip.pk T)
             (Trip_objects
                (database (snd (serve (TripDeleteView (Some U) method (Trip.pk T)) w))))
           = Some T).
Proof.
  intros w U T method form Hget Hne. apply Z.eqb_neq in Hne.
  assert (Hup : serve (TripUpdateView (Some U) method (Trip.pk T) form) w
                = (PermissionDenied, w)).
  { run_view. rewrite Hget. run_view. rewrite Hne. reflexivity. }
  assert (Hdel : serve (TripDeleteView (Some U) method (Trip.pk T)) w
                 = (PermissionDenied, w)).
  { run_view. rewrite Hget. run_view. rewrite Hne. reflexivity. }
  rewrite Hup, Hdel. cbn [snd]. auto.
Qed.

(** C8: for an authenticated user U, the create-trip form offers the
    aircraft whose owner is U and no other; a submission is either
    refused (the form is shown again and nothing is stored), which is
    the case whenever the aircraft chosen is not one of those, or it is
    accepted: then one Trip row is added, its owner is U whatever owner
    the request carried, its aircraft is an aircraft of U, the success
    message is queued and the answer is a redirect to the dashboard. *)
Theorem C8_create_trip :
  forall (default_status : string) (w : World) (U : User) (form : TripForm.t),
    let mine := filter (fun a => Aircraft.owner a =? U) (Aircraft_objects (database w)) in
    let outcome := serve (TripCreateView default_status (Some U) POST form) w in
    offered (fst (serve (TripCreateView default_status (Some U) GET form) w)) = mine
    /\ (forall a, In a mine <-> In a (Aircraft_objects (database w)) /\ Aircraft.owner a = U)
    /\ ((outcome = (render "trip_form.html" (ctx_trip_form mine None), w)
         /\ ~ (TripForm.fields_valid form = true
               /\ exists a, In a mine /\ TripForm.aircraft form = Some (Aircraft.pk a)))
        \/ (exists t a,
              outcome =
                (redirect url_dashboard,
                 mkWorld
                   (mkDB (Trip_objects (database w) ++ [t])
                      (Booking_objects (database w))
                      (Aircraft_objects (database w)))
                   (flash w ++ [(level_success, "Sua viagem foi anunciada com sucesso!")]))
              /\ Trip.owner t = U
              /\ Trip.aircraft t = Aircraft.pk a
              /\ In a (Aircraft_objects (database w))
              /\ Aircraft.owner a = U
              /\ TripForm.aircraft form = Some (Aircraft.pk a)
              /\ TripForm.fields_valid form = true)).
Proof.
  intros default_status w U form mine outcome.
  assert (Hmine : forall a, In a mine <->
                            In a (Aircraft_objects (database w)) /\ Aircraft.owner a = U).
  { intro a. unfold mine. rewrite filter_In, Z.eqb_eq. reflexivity. }
  split; [reflexivity|]. split; [exact Hmine|].
  subst outcome. run_view. fold mine. unfold TripForm_is_valid.
  destruct (TripForm.fields_valid form) eqn:Hfields; cbn [andb].
  - destruct (choice_valid mine (TripForm.aircraft form)) eqn:Hchoice.
    + right. unfold choice_valid in Hchoice.
      destruct (TripForm.aircraft form) as [k|] eqn:Ha; [|discriminate].
      apply existsb_exists in Hchoice. destruct Hchoice as (a & Hin & Hk).
      apply Z.eqb_eq in Hk. subst k. apply Hmine in Hin. destruct Hin as [Hin Ho].
      eexists. exists a. split; [reflexivity|]. cbn [Trip.owner Trip.aircraft chosen].
      repeat (split; [try reflexivity; assumption|]). reflexivity.
    + left. split; [reflexivity|]. intros [_ (a & Hin & Ha)].
      unfold choice_valid in Hchoice. rewrite Ha in Hchoice.
      assert (existsb (fun a0 => Aircraft.pk a0 =? Aircraft.pk a) mine = true).
      { apply existsb_exists. exists a. split; [exact Hin | apply Z.eqb_refl]. }
      congruence.
  - left. split; [reflexivity|]. intros [Habs _]. discriminate.
Qed.

(** C10: the update form lists aircraft among its fields and takes the
    whole aircraft table as the choices of that field: in the sample
    store, user 10, who owns trip 1, submits the update form with
    aircraft 2, which belongs to user 20; the update is accepted and
    trip 1 is stored with aircraft 2.  The create form refuses the same
    submission and offers user 10 only aircraft 1. *)
Theorem C10_update_accepts_foreign_aircraft :
  In "aircraft" TripUpdateView_fields
  /\ In "aircraft" TripCreateView_fields
  /\ exists (T T' : Trip.t) (a : Aircraft.t) (w' : World),
       let U := 10 in
       let form := Sample.trip_form 2 in
       get_by_pk Trip.pk 1 (Trip_objects (database Sample.world)) = Some T
       /\ Trip.owner T = U
       /\ In a (Aircraft_objects (database Sample.world))
       /\ Aircraft.pk a = 2
       /\ Aircraft.owner a <> U
       /\ TripForm.aircraft form = Some (Aircraft.pk a)
       /\ serve (TripUpdateView (Some U) POST 1 form) Sample.world
          = (redirect url_dashboard, w')
       /\ get_by_pk Trip.pk 1 (Trip_objects (database w')) = Some T'
       /\ Trip.owner T' = U
       /\ Trip.aircraft T' = Aircraft.pk a
       /\ offered (fst (serve (TripUpdateView (Some U) GET 1 form) Sample.world))
          = Aircraft_objects (database Sample.world)
       /\ (forall default_status,
             serve (TripCreateView default_status (Some U) POST form) Sample.world
             = (render "trip_form.html" (ctx_trip_form [Aircraft.mk 1 10] None),
                Sample.world)).
Proof.
  split; [simpl; auto|]. split; [simpl; auto|].
  exists Sample.natal.
  eexists. exists (Aircraft.mk 2 20). eexists.
  cbv zeta.
  split; [reflexivity|]. split; [reflexivity|].
  split; [simpl; auto|]. split; [reflexivity|].
  split; [discriminate|]. split; [reflexivity|].
  split; [vm_compute; reflexivity|].
  split; [vm_compute; reflexivity|].
  split; [reflexivity|]. split; [reflexivity|].
  split; [reflexivity|].
  intro default_status. reflexivity.
Qed.

(* ================================================================== *)
(** * The theorems at work on the sample store *)

(** Three submissions by user 30 on trip 1 leave one booking. *)
Lemma C1_witness :
  (List.length (bookings_of (database Sample.world) 1%Z 30%Z) <= 1)%nat
  /\ (List.length
        (bookings_of (database (book_all Sample.requests Sample.world)) 1%Z 30%Z) <= 1)%nat
  /\ List.length
       (bookings_of (database (book_all Sample.requests Sample.world)) 1%Z 30%Z) = 1%nat.
Proof.
  assert (H : (List.length (bookings_of (database Sample.world) 1%Z 30%Z) <= 1)%nat)
    by (vm_compute; lia).
  split; [exact H|]. split.
  - exact (proj1 (@C1_at_most_one_booking Sample.world 30 1 Sample.requests H)).
  - reflexivity.
Defined.

(** User 20 may neither update nor delete trip 1 of user 10. *)
Lemma C2_witness :
  get_by_pk Trip.pk 1 (Trip_objects (database Sample.world)) = Some Sample.natal
  /\ 20 <> Trip.owner Sample.natal
  /\ serve (TripUpdateView (Some 20) POST 1 (Sample.trip_form 2)) Sample.world
     = (PermissionDenied, Sample.world)
  /\ serve (TripDeleteView (Some 20) POST 1) Sample.world
     = (PermissionDenied, Sample.world).
Proof.
  assert (Hget : get_by_pk Trip.pk (Trip.pk Sample.natal)
                   (Trip_objects (database Sample.world)) = Some Sample.natal)
    by reflexivity.
  assert (Hne : 20 <> Trip.owner Sample.natal) by (simpl; lia).
  split; [exact Hget|]. split; [exact Hne|].
  pose proof (@C2_only_the_owner_edits_or_deletes Sample.world 20 Sample.natal POST
                (Sample.trip_form 2) Hget Hne) as [[Hup _] [Hdel _]].
  split; [exact Hup | exact Hdel].
Defined.

(** User 10 cannot book a seat on trip 1, which is theirs. *)
Lemma C3_witness :
  get_by_pk Trip.pk 1 (Trip_objects (database Sample.world)) = Some Sample.natal
  /\ Trip.owner Sample.natal = 10
  /\ BookingForm.is_valid Sample.booking_form = true
  /\ serve (CreateBookingView (Some 10) POST 1 Sample.booking_form) Sample.world
     = (redirect (url_trip_detail 1),
        mkWorld Sample.db
          [(level_error, "Você não pode reservar um assento na sua própria viagem.")]).
Proof.
  assert (Hget : get_by_pk Trip.pk (Trip.pk Sample.natal)
                   (Trip_objects (database Sample.world)) = Some Sample.natal)
    by reflexivity.
  assert (Ho : Trip.owner Sample.natal = 10) by reflexivity.
  split; [exact Hget|]. split; [exact Ho|]. split; [reflexivity|].
  exact (proj1 (proj2 (@C3_owner_cannot_book Sample.world 10 Sample.natal Hget Ho))
           Sample.booking_form eq_refl).
Defined.

(** User 10 submits a form that does not validate on trip 1, which is
    theirs: the form is shown again; there is no error message and no
    redirect. *)
Lemma C3_counterexample :
  get_by_pk Trip.pk 1 (Trip_objects (database Sample.world)) = Some Sample.natal
  /\ Trip.owner Sample.natal = 10
  /\ serve (CreateBookingView (Some 10) POST 1 Cases.invalid_form) Sample.world
     = (render "create_booking.html" ctx_booking_form, Sample.world)
  /\ flash (snd (serve (CreateBookingView (Some 10) POST 1 Cases.invalid_form)
                   Sample.world)) = []
  /\ (forall url,
        fst (serve (CreateBookingView (Some 10) POST 1 Cases.invalid_form) Sample.world)
        <> redirect url).
Proof.
  split; [reflexivity|]. split; [reflexivity|]. split; [reflexivity|].
  split; [reflexivity|]. intro url. cbn. discriminate.
Qed.

(** User 30 has a booking on trip 1 and submits a form that does not
    validate: the form is shown again, without warning or redirect.
    User 10, the owner of trip 1, has a booking on it and submits a
    form that validates: the answer is the self-booking error, not the
    warning. *)
Lemma C1_counterexample :
  bookings_of (database Cases.booked_world) 1 30 <> []
  /\ serve (CreateBookingView (Some 30) POST 1 Cases.invalid_form) Cases.booked_world
     = (render "create_booking.html" ctx_booking_form, Cases.booked_world)
  /\ flash (snd (serve (CreateBookingView (Some 30) POST 1 Cases.invalid_form)
                   Cases.booked_world)) = []
  /\ bookings_of (database Cases.owner_booked_world) 1 10 <> []
  /\ serve (CreateBookingView (Some 10) POST 1 Sample.booking_form)
       Cases.owner_booked_world
     = (redirect (url_trip_detail 1),
        mkWorld (database Cases.owner_booked_world)
          [(level_error, "Você não pode reservar um assento na sua própria viagem.")]).
Proof.
  split; [cbn; discriminate|]. split; [reflexivity|]. split; [reflexivity|].
  split; [cbn; discriminate | reflexivity].
Qed.

(** No trip has key 7 in the sample store.  An anonymous submission
    on it is sent to the login page, and user 30 asking for the form
    gets the form: neither is answered with NotFound. *)
Lemma C4_counterexample :
  get_by_pk Trip.pk 7 (Trip_objects (database Sample.world)) = None
  /\ BookingForm.is_valid Sample.booking_form = true
  /\ serve (CreateBookingView None POST 7 Sample.booking_form) Sample.world
     = (redirect url_login, Sample.world)
  /\ fst (serve (CreateBookingView None POST 7 Sample.booking_form) Sample.world)
     <> Http404
  /\ serve (CreateBookingView (Some 30) POST 7 Sample.booking_form) Sample.world
     = (Http404, Sample.world)
  /\ serve (CreateBookingView (Some 30) GET 7 Sample.booking_form) Sample.world
     = (render "create_booking.html" ctx_booking_form, Sample.world).
Proof.
  split; [reflexivity|]. split; [reflexivity|]. split; [reflexivity|].
  split; [simpl; discriminate|]. split; reflexivity.
Qed.

(** User 30, who has no booking on trip 1 of user 10, submits one: all
    checks pass and the booking is stored. *)
Lemma C4_witness :
  exists row,
    serve (CreateBookingView (Some 30) POST 1 Sample.booking_form) Sample.world
    = (redirect (url_trip_detail 1),
       mkWorld
         (mkDB (Trip_objects Sample.db) (Booking_objects Sample.db ++ [row])
            (Aircraft_objects Sample.db))
         [(level_success,
           "Seu interesse foi registrado com sucesso! O proprietário entrará em contato.")])
    /\ Booking.trip row = 1
    /\ Booking.passenger row = 30.
Proof.
  pose proof (C4_checks_in_order Sample.world (Some 30) 1 Sample.booking_form) as H.
  cbv zeta in H. destruct H as (_ & _ & _ & _ & _ & H).
  apply (H 30 Sample.natal); try reflexivity.
  simpl. lia.
Defined.



(** The closed trip 2 is in no listing. *)
Lemma C7_witness :
  (Trip.status Sample.closed <> "OPEN" \/ Trip.departure_time Sample.closed < 0)
  /\ ~ In Sample.closed (listed (fst (serve (HomePageView 0) Sample.world)))
  /\ ~ In Sample.closed
       (listed (fst (serve (TripListView Sample.date_lookup 0 [("origin", "natal")]
                              page_absent) Sample.world))).
Proof.
  assert (H : Trip.status Sample.closed <> "OPEN" \/ Trip.departure_time Sample.closed < 0)
    by (left; simpl; discriminate).
  split; [exact H|].
  exact (@C7_closed_or_departed_never_listed Sample.date_lookup 0 Sample.world
           [("origin", "natal")] page_absent Sample.closed H).
Defined.

(** A search with an empty date is the search without a date. *)
Lemma C9_witness :
  QueryDict_get [("date", "")] "date" = Some ""
  /\ QueryDict_get [] "date" = None
  /\ serve (TripListView Sample.date_lookup 0 [("date", "")] page_absent) Sample.world
     = serve (TripListView Sample.date_lookup 0 [] page_absent) Sample.world.
Proof.
  split; [reflexivity|]. split; [reflexivity|].
  apply (@C9_empty_parameter_is_absent Sample.date_lookup 0 Sample.world
           "date" [("date", "")] [] page_absent).
  - simpl. auto.
  - reflexivity.
  - reflexivity.
  - intros k Hk. cbn [QueryDict_get]. destruct ("date" =? k)%string eqn:E.
    + apply String.eqb_eq in E. congruence.
    + reflexivity.
Defined.

(** The home page over seven open trips to come shows the five that
    leave first, soonest first. *)
Example home_page_of_seven :
  map Trip.pk (listed (fst (serve (HomePageView 0) (mkWorld Sample.seven []))))
  = [14; 17; 12; 18; 13].
Proof. reflexivity. Qed.

(** A search for origin [nAtAl] at time 1000 finds trip 1 only: trip 2
    is closed and trip 3 has left. *)
Example search_natal :
  map Trip.pk
    (listed (fst (serve (TripListView Sample.date_lookup 1000 [("origin", "nAtAl")]
                           page_absent) Sample.world)))
  = [1].
Proof. reflexivity. Qed.

(** The last value given for a key is the one read. *)
Example query_dict_last_value :
  QueryDict_get [("origin", "Natal"); ("date", ""); ("origin", "Recife")] "origin"
  = Some "Recife".
Proof. reflexivity. Qed.

(** The owner of trip 1 updates it; another user is refused; a third
    books it once. *)
Example update_by_owner :
  fst (serve (TripUpdateView (Some 10) POST 1 (Sample.trip_form 1)) Sample.world)
  = redirect url_dashboard.
Proof. reflexivity. Qed.

Example booking_twice :
  map (fun b => (Booking.trip b, Booking.passenger b))
    (Booking_objects (database (book_all Sample.requests Sample.world)))
  = [(1, 30)]
  /\ map fst (flash (book_all Sample.requests Sample.world))
     = [level_success; level_warning; level_warning].
Proof. split; reflexivity. Qed.

(* ================================================================== *)
(** * The views beyond the claims: reading *)

Lemma get_by_pk_none (A : Type) (pk_of : A -> Z) (k : Z) (l : list A) :
  get_by_pk pk_of k l = None <-> (forall x, In x l -> pk_of x <> k).
Proof.
  unfold get_by_pk. split.
  - intros H x Hx. apply (find_none _ _ H) in Hx. apply Z.eqb_neq. exact Hx.
  - intro H. induction l as [|y l IH]; simpl; [reflexivity|].
    destruct (pk_of y =? k) eqn:E.
    + apply Z.eqb_eq in E. elim (H y); [left; reflexivity | exact E].
    + apply IH. intros x Hx. apply H. right. exact Hx.
Qed.

Lemma StronglySorted_impl (A : Type) (R R' : A -> A -> Prop) (l : list A) :
  (forall a b, R a b -> R' a b) -> StronglySorted R l -> StronglySorted R' l.
Proof.
  intros Himp. induction 1 as [|a l Hs IH Hall]; constructor.
  - exact IH.
  - eapply Forall_impl; [|exact Hall]. intros b. apply Himp.
Qed.

Lemma sorted_skipn (A : Type) (R : A -> A -> Prop) (n : nat) (l : list A) :
  StronglySorted R l -> StronglySorted R (skipn n l).
Proof.
  intros Hs. revert n.
  induction Hs as [|a l Hs IH Hall]; intros [|n]; simpl;
    try constructor; auto.
Qed.

(** The detail view answers a key with the stored trip of that key,
    whatever its status and times, and with NotFound exactly when no
    stored trip has the key; it changes nothing. *)
Theorem detail_found_or_not_found :
  forall (w : World) (k : Z),
    (exists t,
        In t (Trip_objects (database w)) /\ Trip.pk t = k
        /\ serve (TripDetailView k) w = (render "detalhes.html" (ctx_trip "trip" t), w))
    \/ ((forall t, In t (Trip_objects (database w)) -> Trip.pk t <> k)
        /\ serve (TripDetailView k) w = (Http404, w)).
Proof.
  intros w k. run_more.
  destruct (get_by_pk Trip.pk k (Trip_objects (database w))) as [t|] eqn:Hget.
  - left. exists t. destruct (get_by_pk_key _ _ _ Hget) as [Hk Hin]. auto.
  - right. split; [|reflexivity]. apply get_by_pk_none. exact Hget.
Qed.

(** The dashboard of an authenticated user lists the stored trips whose
    owner is that user, all of them (closed and departed ones too) and
    no other, latest departure first, and changes nothing. *)
Theorem dashboard_lists_own_trips :
  forall (w : World) (U : User),
  exists owner_trips,
    serve (DashboardView (Some U)) w
      = (render "dashboard.html" (ctx_trips "owner_trips" owner_trips), w)
    /\ (forall t, In t owner_trips <->
                  In t (Trip_objects (database w)) /\ Trip.owner t = U)
    /\ Permutation owner_trips
         (filter (fun t => Trip.owner t =? U) (Trip_objects (database w)))
    /\ StronglySorted descending owner_trips.
Proof.
  intros w U. eexists. split; [reflexivity|]. split; [|split].
  - intro t. rewrite order_by_In, filter_In, Z.eqb_eq. reflexivity.
  - apply order_by_perm.
  - eapply StronglySorted_impl; [|apply order_by_sorted].
    intros a b H. unfold descending. cbv beta in H. lia.
Qed.

(** A requester who is not logged in is sent to the login page by each
    of the five protected views, whatever is asked and whether or not
    the trip exists, and nothing changes. *)
Theorem anonymous_is_sent_to_login :
  forall (default_status : string) (w : World) (method : Method) (k : Z)
         (booking : BookingForm.t) (form : TripForm.t),
    serve (CreateBookingView None method k booking) w = (redirect url_login, w)
    /\ serve (DashboardView None) w = (redirect url_login, w)
    /\ serve (TripCreateView default_status None method form) w = (redirect url_login, w)
    /\ serve (TripUpdateView None method k form) w = (redirect url_login, w)
    /\ serve (TripDeleteView None method k) w = (redirect url_login, w).
Proof. intros. repeat split. Qed.

(** Reading changes nothing: the four listing and detail views, and a
    GET to any of the four form views, leave the store and the queued
    messages as they were, for every requester. *)
Theorem reading_changes_nothing :
  forall (date_lookup : Z -> string -> bool) (default_status : string) (now : Z)
         (w : World) (user : option User) (GET_ : QueryDict) (page : PageArg) (k : Z)
         (booking : BookingForm.t) (form : TripForm.t),
    snd (serve (HomePageView now) w) = w
    /\ snd (serve (TripListView date_lookup now GET_ page) w) = w
    /\ snd (serve (TripDetailView k) w) = w
    /\ snd (serve (DashboardView user) w) = w
    /\ snd (serve (CreateBookingView user GET k booking) w) = w
    /\ snd (serve (TripCreateView default_status user GET form) w) = w
    /\ snd (serve (TripUpdateView user GET k form) w) = w
    /\ snd (serve (TripDeleteView user GET k) w) = w.
Proof.
  intros date_lookup default_status now w user GET_ page k booking form.
  split; [reflexivity|]. split.
  { unfold serve, TripListView, bind. rewrite get_queryset_run.
    destruct (date_refused GET_); [reflexivity|].
    destruct page as [| |n|]; simpl; try reflexivity.
    destruct ((1 <=? n) && _); reflexivity. }
  split.
  { run_more. destruct (get_by_pk _ _ _); reflexivity. }
  split; [destruct user; reflexivity|].
  split; [destruct user; reflexivity|].
  split; [destruct user; reflexivity|].
  split.
  - destruct user as [u|]; [|reflexivity]. run_view.
    destruct (get_by_pk Trip.pk k (Trip_objects (database w))) as [t|] eqn:Hget;
      run_view; [|reflexivity].
    destruct (u =? Trip.owner t); run_view; [|reflexivity].
    rewrite Hget. reflexivity.
  - destruct user as [u|]; [|reflexivity]. run_view.
    destruct (get_by_pk Trip.pk k (Trip_objects (database w))) as [t|] eqn:Hget;
      run_view; [|reflexivity].
    destruct (u =? Trip.owner t); run_view; [|reflexivity].
    rewrite Hget. reflexivity.
Qed.

(** The home page shows the head of the search made without
    parameters: its list is the first five rows of that query set, and
    every row any search shows, on any page, is a row of it. *)
Theorem home_is_head_of_open_search :
  forall (date_lookup : Z -> string -> bool) (now : Z) (w : World),
  exists everything,
    TripListView_get_queryset date_lookup now [] w = (Ok everything, w)
    /\ listed (fst (serve (HomePageView now) w)) = firstn 5 everything
    /\ (forall (GET_ : QueryDict) (page : PageArg) (t : Trip.t),
          In t (listed (fst (serve (TripListView date_lookup now GET_ page) w))) ->
          In t everything).
Proof.
  intros date_lookup now w.
  assert (E : filter (search_filter date_lookup now []) (Trip_objects (database w))
              = filter (open_and_upcoming now) (Trip_objects (database w))).
  { apply filter_ext. intro t. unfold search_filter, when_given. simpl.
    rewrite !andb_true_r. reflexivity. }
  eexists. split; [rewrite get_queryset_run; reflexivity|]. rewrite E. split.
  - rewrite HomePageView_run. reflexivity.
  - intros GET_ page t H. apply TripListView_listed in H. destruct H as [Hin Hf].
    apply order_by_In, filter_In. split; [exact Hin|].
    unfold search_filter in Hf. rewrite !andb_true_iff in Hf. tauto.
Qed.

(** Whatever page of whatever search is asked for, the list shown has
    ten trips at most and is in ascending order of departure_time. *)
Theorem search_page_is_short_and_ordered :
  forall (date_lookup : Z -> string -> bool) (now : Z) (GET_ : QueryDict)
         (page : PageArg) (w : World),
    (List.length (listed (fst (serve (TripListView date_lookup now GET_ page) w)))
     <= 10)%nat
    /\ StronglySorted ascending
         (listed (fst (serve (TripListView date_lookup now GET_ page) w))).
Proof.
  intros date_lookup now GET_ page w.
  unfold serve, TripListView, bind. rewrite get_queryset_run.
  set (qs := order_by _ _).
  assert (Hs : StronglySorted ascending qs) by apply order_by_sorted.
  assert (Hpage : forall n,
             (List.length (Paginator_page paginate_by qs n) <= 10)%nat
             /\ StronglySorted ascending (Paginator_page paginate_by qs n)).
  { intro n. unfold Paginator_page. split.
    - apply firstn_le_length.
    - apply sorted_firstn, sorted_skipn, Hs. }
  assert (Hnil : (List.length (@nil Trip.t) <= 10)%nat /\ StronglySorted ascending [])
    by (split; [simpl; lia | constructor]).
  destruct (date_refused GET_); [exact Hnil|].
  destruct page as [| |n|]; simpl; try apply Hpage; try exact Hnil.
  destruct ((1 <=? n) && _); simpl; [apply Hpage | exact Hnil].
Qed.

(* ================================================================== *)
(** * The views beyond the claims: booking *)

(** What a booking request does to the store depends on the store
    alone, not on the messages queued before. *)
Lemma book_database (r : BookingRequest) (w w' : World) :
  database w = database w' ->
  fst (book r w) = fst (book r w')
  /\ database (snd (book r w)) = database (snd (book r w')).
Proof.
  intro E. destruct w as [d f], w' as [d' f']. cbn in E. subst d'.
  destruct r as [user method k form]. run_view.
  destruct user as [u|]; [|split; reflexivity].
  destruct method; [split; reflexivity|].
  destruct (BookingForm.is_valid form); [|split; reflexivity].
  cbn [database Trip_objects].
  destruct (get_by_pk Trip.pk k (Trip_objects d)) as [t|];
    run_view; [|split; reflexivity].
  destruct (Trip.owner t =? u); run_view; [split; reflexivity|].
  destruct (existsb _ (Booking_objects d)); run_view; split; reflexivity.
Qed.

(** A booking that passes every check is stored as submitted and is
    the one booking of the requester on the trip; the same submission
    made again is answered with the warning and stores nothing. *)
Theorem booking_is_stored_and_found :
  forall (w : World) (u : User) (k : Z) (form : BookingForm.t) (t : Trip.t),
    BookingForm.is_valid form = true ->
    get_by_pk Trip.pk k (Trip_objects (database w)) = Some t ->
    Trip.owner t <> u ->
    bookings_of (database w) k u = [] ->
    let after := snd (serve (CreateBookingView (Some u) POST k form) w) in
    exists row,
      bookings_of (database after) k u = [row]
      /\ Booking.trip row = k
      /\ Booking.passenger row = u
      /\ Booking.seats_requested row = BookingForm.seats_requested form
      /\ Booking.message_to_owner row = BookingForm.message_to_owner form
      /\ serve (CreateBookingView (Some u) POST k form) after
         = (redirect (url_trip_detail k),
            mkWorld (database after)
              (flash after
               ++ [(level_warning, "Você já demonstrou interesse nesta viagem.")])).
Proof.
  intros w u k form t Hvalid Hget Howner Hnone after.
  destruct (get_by_pk_key _ _ _ Hget) as [Hk _].
  assert (Hafter : after =
            mkWorld
              (mkDB (Trip_objects (database w))
                 (Booking_objects (database w)
                  ++ [Booking.mk (next_pk Booking.pk (Booking_objects (database w)))
                        k u (BookingForm.seats_requested form)
                        (BookingForm.message_to_owner form)])
                 (Aircraft_objects (database w)))
              (flash w
               ++ [(level_success,
                    "Seu interesse foi registrado com sucesso! O proprietário entrará em contato.")])).
  { subst after. run_view. rewrite Hvalid, Hget. run_view.
    apply Z.eqb_neq in Howner. rewrite Howner, Hk.
    apply existsb_filter_nil in Hnone. unfold bookings_of in Hnone.
    run_view. rewrite Hnone. reflexivity. }
  clearbody after. subst after.
  eexists. split; [|split; [|split; [|split; [|split]]]].
  - cbn [database]. rewrite bookings_of_app, Hnone.
    cbn [Booking.trip Booking.passenger]. rewrite !Z.eqb_refl. reflexivity.
  - reflexivity.
  - reflexivity.
  - reflexivity.
  - reflexivity.
  - run_view. rewrite Hvalid. cbn [database Trip_objects]. rewrite Hget. run_view.
    apply Z.eqb_neq in Howner. rewrite Howner, Hk. run_view.
    cbn [database Booking_objects]. rewrite existsb_app.
    cbn [existsb Booking.trip Booking.passenger].
    rewrite !Z.eqb_refl. cbn [andb orb]. rewrite orb_true_r. reflexivity.
Qed.

(** Booking requests only ever add bookings: after any run of them the
    trips and the aircraft are as before, and the bookings are those of
    before, in place and untouched, followed by at most one new row
    for each request. *)
Theorem booking_only_appends :
  forall (requests : list BookingRequest) (w : World),
    Trip_objects (database (book_all requests w)) = Trip_objects (database w)
    /\ Aircraft_objects (database (book_all requests w)) = Aircraft_objects (database w)
    /\ exists added,
         Booking_objects (database (book_all requests w))
         = Booking_objects (database w) ++ added
         /\ (List.length added <= List.length requests)%nat.
Proof.
  induction requests as [|r rs IH]; intro w.
  - split; [reflexivity|]. split; [reflexivity|].
    exists []. rewrite app_nil_r. split; [reflexivity | simpl; lia].
  - change (book_all (r :: rs) w) with (book_all rs (snd (book r w))).
    destruct (IH (snd (book r w))) as (Ht & Ha & added & Hb & Hlen).
    rewrite Ht, Ha, Hb. clear Ht Ha Hb IH.
    destruct (book_outcome w r); cbn [snd database Trip_objects Aircraft_objects
                                       Booking_objects];
      try (split; [reflexivity|]; split; [reflexivity|];
           exists added; split; [reflexivity | simpl; lia]).
    split; [reflexivity|]. split; [reflexivity|].
    eexists. rewrite <- app_assoc. split; [reflexivity|]. simpl. lia.
Qed.

(** Making the same booking request twice leaves the store as making
    it once does. *)
Theorem booking_twice_is_booking_once :
  forall (r : BookingRequest) (w : World),
    database (snd (book r (snd (book r w)))) = database (snd (book r w)).
Proof.
  intros [user m k f] [d fl].
  destruct user as [u|]; [|reflexivity].
  destruct m; [reflexivity|].
  run_view.
  destruct (BookingForm.is_valid f) eqn:Hv; [|reflexivity].
  cbn [database Trip_objects].
  destruct (get_by_pk Trip.pk k (Trip_objects d)) as [t|] eqn:Hg;
    run_view; [|rewrite Hg; reflexivity].
  destruct (Trip.owner t =? u) eqn:Ho; run_view.
  { cbn [database Trip_objects]. rewrite Hg. run_view. rewrite Ho. reflexivity. }
  cbn [database Booking_objects].
  destruct (existsb _ (Booking_objects d)) eqn:Hb; run_view.
  - cbn [database Trip_objects]. rewrite Hg. run_view. rewrite Ho. run_view.
    cbn [database Booking_objects]. rewrite Hb. reflexivity.
  - cbn [database Trip_objects]. rewrite Hg. run_view. rewrite Ho. run_view.
    cbn [database Booking_objects]. rewrite existsb_app.
    cbn [existsb Booking.trip Booking.passenger].
    rewrite !Z.eqb_refl. cbn [andb orb]. rewrite orb_true_r. reflexivity.
Qed.

Lemma book_keeps_no_self_booking (r : BookingRequest) (w : World) :
  no_self_booking (database w) -> no_self_booking (database (snd (book r w))).
Proof.
  intro Hinv. destruct (book_outcome w r) as [| | | |
                          | u t Hu Hm Hv Hget Howner Hnone];
    cbn [snd database]; try exact Hinv.
  intros b t' Hb Ht'. cbn [Booking_objects Trip_objects] in *.
  apply in_app_or in Hb. destruct Hb as [Hb | [<- | []]].
  - apply (Hinv b t' Hb Ht').
  - cbn [Booking.trip Booking.passenger] in *.
    destruct (get_by_pk_key _ _ _ Hget) as [Hk _].
    rewrite Hk, Hget in Ht'. inversion Ht'. subst t'. exact Howner.
Qed.

(** The booking view never stores a booking of an owner on their own
    trip: if no stored booking is held by the owner of its trip, this
    is still so after any run of booking requests. *)
Theorem bookings_are_never_the_owners :
  forall (requests : list BookingRequest) (w : World),
    no_self_booking (database w) ->
    no_self_booking (database (book_all requests w)).
Proof.
  induction requests as [|r rs IH]; intros w Hinv.
  - exact Hinv.
  - change (book_all (r :: rs) w) with (book_all rs (snd (book r w))).
    apply IH, book_keeps_no_self_booking, Hinv.
Qed.

Lemma get_by_pk_identities (l l' : list Trip.t) (k : Z) :
  map (fun t => (Trip.pk t, Trip.owner t)) l
  = map (fun t => (Trip.pk t, Trip.owner t)) l' ->
  match get_by_pk Trip.pk k l, get_by_pk Trip.pk k l' with
  | Some t, Some t' => Trip.pk t = Trip.pk t' /\ Trip.owner t = Trip.owner t'
  | None, None => True
  | _, _ => False
  end.
Proof.
  revert l'. induction l as [|x l IH]; intros [|x' l'] E; try discriminate.
  - exact I.
  - cbn [map] in E. inversion E as [[Epk Eowner Erest]].
    unfold get_by_pk. cbn [find]. rewrite <- Epk.
    destruct (Trip.pk x =? k).
    + split; assumption.
    + apply IH. exact Erest.
Qed.

(** Booking takes no account of what a trip holds beyond its key and
    its owner: in two worlds whose trips have the same keys and owners
    and whose bookings and messages are the same, a booking request
    gets the same response, stores the same bookings and queues the
    same messages, whatever the status, the times and the seats of the
    trips are. *)
Theorem booking_ignores_status_and_seats :
  forall (r : BookingRequest) (w w' : World),
    trip_identities (database w) = trip_identities (database w') ->
    Booking_objects (database w) = Booking_objects (database w') ->
    flash w = flash w' ->
    fst (book r w) = fst (book r w')
    /\ Booking_objects (database (snd (book r w)))
       = Booking_objects (database (snd (book r w')))
    /\ flash (snd (book r w)) = flash (snd (book r w')).
Proof.
  intros [user m k f] [[trips bookings aircraft] fl] [[trips' bookings' aircraft'] fl'].
  unfold trip_identities. cbn [database Trip_objects Booking_objects flash].
  intros Eid <- <-.
  pose proof (get_by_pk_identities trips trips' k Eid) as Hget.
  destruct user as [u|]; [|repeat split].
  destruct m; [repeat split|].
  run_view. destruct (BookingForm.is_valid f); [|repeat split].
  cbn [database Trip_objects].
  destruct (get_by_pk Trip.pk k trips) as [t|], (get_by_pk Trip.pk k trips') as [t'|];
    try contradiction; run_view; [|repeat split].
  destruct Hget as [Epk Eowner]. rewrite <- Epk, <- Eowner.
  destruct (Trip.owner t =? u); run_view; [repeat split|].
  cbn [database Booking_objects].
  destruct (existsb _ bookings); run_view; repeat split.
Qed.

(* ================================================================== *)
(** * The views beyond the claims: the owner's panel *)

Lemma NoDup_map_injective (A B : Type) (f : A -> B) (l : list A) (x y : A) :
  NoDup (map f l) -> In x l -> In y l -> f x = f y -> x = y.
Proof.
  induction l as [|a l IH]; intros Hnd Hx Hy E; [destruct Hx|].
  cbn [map] in Hnd. inversion Hnd as [|? ? Hnotin Hnd']. subst.
  destruct Hx as [<-|Hx], Hy as [<-|Hy].
  - reflexivity.
  - elim Hnotin. rewrite E. apply in_map. exact Hy.
  - elim Hnotin. rewrite <- E. apply in_map. exact Hx.
  - apply IH; assumption.
Qed.

Lemma get_by_pk_replaced (row : Trip.t) (l : list Trip.t) :
  get_by_pk Trip.pk (Trip.pk row)
    (map (fun t => if Trip.pk t =? Trip.pk row then row else t) l)
  = match get_by_pk Trip.pk (Trip.pk row) l with
    | Some _ => Some row
    | None => None
    end.
Proof.
  unfold get_by_pk. induction l as [|x l IH]; cbn [map find]; [reflexivity|].
  destruct (Trip.pk x =? Trip.pk row) eqn:E.
  - rewrite Z.eqb_refl. reflexivity.
  - rewrite E. exact IH.
Qed.

Lemma get_by_pk_not_replaced (row : Trip.t) (l : list Trip.t) (k : Z) :
  k <> Trip.pk row ->
  get_by_pk Trip.pk k (map (fun t => if Trip.pk t =? Trip.pk row then row else t) l)
  = get_by_pk Trip.pk k l.
Proof.
  intro Hk. unfold get_by_pk. induction l as [|x l IH]; cbn [map find]; [reflexivity|].
  destruct (Trip.pk x =? Trip.pk row) eqn:E.
  - apply Z.eqb_eq in E.
    replace (Trip.pk row =? k) with false by (symmetry; apply Z.eqb_neq; congruence).
    replace (Trip.pk x =? k) with false by (symmetry; apply Z.eqb_neq; congruence).
    exact IH.
  - destruct (Trip.pk x =? k); [reflexivity | exact IH].
Qed.

(** When the owner of a trip submits the update form, a form that does
    not validate is shown again and nothing changes; one that validates
    is stored: the trip found under the key afterwards has the same key
    and owner, the submitted values and status, and an aircraft of the
    aircraft table; the trips under other keys, the bookings and the
    aircraft are as before; the success message is queued, the answer
    is a redirect to the dashboard, and the detail view shows the new
    values. *)
Theorem owner_update_is_stored :
  forall (w : World) (U : User) (k : Z) (form : TripForm.t) (t : Trip.t),
    get_by_pk Trip.pk k (Trip_objects (database w)) = Some t ->
    Trip.owner t = U ->
    let out := serve (TripUpdateView (Some U) POST k form) w in
    (TripForm_is_valid (Aircraft_objects (database w)) form = false ->
     out = (render "trip_form.html"
              (ctx_trip_form (Aircraft_objects (database w)) (Some t)), w))
    /\ (TripForm_is_valid (Aircraft_objects (database w)) form = true ->
        exists t',
          fst out = redirect url_dashboard
          /\ flash (snd out) = flash w ++ [(level_success, "Viagem atualizada com sucesso!")]
          /\ Booking_objects (database (snd out)) = Booking_objects (database w)
          /\ Aircraft_objects (database (snd out)) = Aircraft_objects (database w)
          /\ get_by_pk Trip.pk k (Trip_objects (database (snd out))) = Some t'
          /\ Trip.pk t' = k
          /\ Trip.owner t' = U
          /\ holds_form t' form
          /\ Trip.status t' = TripForm.status form
          /\ (exists a, In a (Aircraft_objects (database w))
                        /\ Aircraft.pk a = Trip.aircraft t')
          /\ (forall k', k' <> k ->
                get_by_pk Trip.pk k' (Trip_objects (database (snd out)))
                = get_by_pk Trip.pk k' (Trip_objects (database w)))
          /\ serve (TripDetailView k) (snd out)
             = (render "detalhes.html" (ctx_trip "trip" t'), snd out)).
Proof.
  intros w U k form t Hget Howner out.
  destruct (get_by_pk_key _ _ _ Hget) as [Hk _].
  assert (Htest : (U =? Trip.owner t) = true) by (apply Z.eqb_eq; congruence).
  split.
  - intro Hinvalid. subst out. run_view. rewrite Hget. run_view.
    rewrite Htest. run_view. rewrite Hget. run_view. rewrite Hinvalid. reflexivity.
  - intro Hvalid.
    set (row := Trip.mk (Trip.pk t) (Trip.owner t) (chosen (TripForm.aircraft form))
                  (TripForm.origin form) (TripForm.destination form)
                  (TripForm.departure_time form) (TripForm.arrival_time form)
                  (TripForm.available_seats form) (TripForm.description form)
                  (TripForm.status form)).
    assert (Hout : out =
              (redirect url_dashboard,
               mkWorld
                 (mkDB (map (fun t0 => if Trip.pk t0 =? Trip.pk row then row else t0)
                          (Trip_objects (database w)))
                    (Booking_objects (database w)) (Aircraft_objects (database w)))
                 (flash w ++ [(level_success, "Viagem atualizada com sucesso!")]))).
    { subst out. run_view. rewrite Hget. run_view.
      rewrite Htest. run_view. rewrite Hget. run_view. rewrite Hvalid. reflexivity. }
    clearbody out. subst out. cbn [fst snd database flash Trip_objects Booking_objects
                                   Aircraft_objects].
    assert (Hrow : Trip.pk row = k) by exact Hk.
    assert (Hfound : get_by_pk Trip.pk k
                       (map (fun t0 => if Trip.pk t0 =? Trip.pk row then row else t0)
                          (Trip_objects (database w))) = Some row).
    { rewrite <- Hrow at 1. rewrite get_by_pk_replaced, Hrow, Hget. reflexivity. }
    unfold TripForm_is_valid in Hvalid. apply andb_true_iff in Hvalid.
    destruct Hvalid as [_ Hchoice]. unfold choice_valid in Hchoice.
    destruct (TripForm.aircraft form) as [ka|] eqn:Ha; [|discriminate].
    apply existsb_exists in Hchoice. destruct Hchoice as (a & Hin & Hka).
    apply Z.eqb_eq in Hka.
    exists row.
    split; [reflexivity|]. split; [reflexivity|].
    split; [reflexivity|]. split; [reflexivity|].
    split; [exact Hfound|]. split; [exact Hk|]. split; [exact Howner|].
    split; [|split; [reflexivity|split; [|split]]].
    + unfold holds_form, row. cbn. rewrite ?Ha. repeat split.
    + exists a. split; [exact Hin|]. unfold row. cbn. rewrite ?Ha. exact Hka.
    + intros k' Hk'. apply get_by_pk_not_replaced. congruence.
    + run_more. cbn [database Trip_objects]. rewrite Hfound. reflexivity.
Qed.

(** An update changes neither the key nor the owner of any trip: when
    the keys of the trip table are distinct, any request to the update
    view, by anyone, leaves the keys and owners of the trips, their
    number and order, the bookings and the aircraft as they were. *)
Theorem update_keeps_keys_and_owners :
  forall (w : World) (user : option User) (method : Method) (k : Z) (form : TripForm.t),
    NoDup (map Trip.pk (Trip_objects (database w))) ->
    let after := snd (serve (TripUpdateView user method k form) w) in
    trip_identities (database after) = trip_identities (database w)
    /\ Booking_objects (database after) = Booking_objects (database w)
    /\ Aircraft_objects (database after) = Aircraft_objects (database w).
Proof.
  intros w user method k form Hnd after. subst after.
  destruct user as [u|]; [|repeat split].
  run_view.
  destruct (get_by_pk Trip.pk k (Trip_objects (database w))) as [t|] eqn:Hget;
    run_view; [|repeat split].
  destruct (u =? Trip.owner t); run_view; [|repeat split].
  rewrite Hget. run_view.
  destruct method; [repeat split|].
  destruct (TripForm_is_valid (Aircraft_objects (database w)) form); run_view;
    [|repeat split].
  split; [|split; reflexivity].
  unfold trip_identities. cbn [database Trip_objects]. rewrite map_map.
  apply map_ext_in. intros t0 Hin0.
  cbn [Trip.pk].
  destruct (Trip.pk t0 =? Trip.pk t) eqn:E; [|reflexivity].
  apply Z.eqb_eq in E. destruct (get_by_pk_key _ _ _ Hget) as [_ Hin].
  rewrite (NoDup_map_injective Trip.pk _ t0 t Hnd Hin0 Hin E). reflexivity.
Qed.

(** For a key that no stored trip has, the update and the delete view
    answer an authenticated requester with NotFound, whatever the method
    and the form, and change nothing. *)
Theorem missing_trip_is_not_found :
  forall (w : World) (U : User) (method : Method) (k : Z) (form : TripForm.t),
    (forall t, In t (Trip_objects (database w)) -> Trip.pk t <> k) ->
    serve (TripUpdateView (Some U) method k form) w = (Http404, w)
    /\ serve (TripDeleteView (Some U) method k) w = (Http404, w).
Proof.
  intros w U method k form Hnone. apply get_by_pk_none in Hnone.
  split; run_view; rewrite Hnone; reflexivity.
Qed.

(** When the owner of a trip asks to delete it, a GET shows the
    confirmation page and removes nothing; a POST removes the trip and
    leaves every trip of another key in place, queues the success
    message and redirects to the dashboard; from then on the detail,
    update, delete and booking views answer NotFound for that key. *)
Theorem owner_delete_removes_the_trip :
  forall (w : World) (U : User) (k : Z) (t : Trip.t),
    get_by_pk Trip.pk k (Trip_objects (database w)) = Some t ->
    Trip.owner t = U ->
    let out := serve (TripDeleteView (Some U) POST k) w in
    serve (TripDeleteView (Some U) GET k) w
      = (render "trip_confirm_delete.html" (ctx_trip "object" t), w)
    /\ fst out = redirect url_dashboard
    /\ flash (snd out) = flash w ++ [(level_success, "Viagem removida com sucesso.")]
    /\ (forall t', In t' (Trip_objects (database (snd out))) <->
                   In t' (Trip_objects (database w)) /\ Trip.pk t' <> k)
    /\ serve (TripDetailView k) (snd out) = (Http404, snd out)
    /\ (forall (V : User) (method : Method) (form : TripForm.t) (booking : BookingForm.t),
          serve (TripUpdateView (Some V) method k form) (snd out) = (Http404, snd out)
          /\ serve (TripDeleteView (Some V) method k) (snd out) = (Http404, snd out)
          /\ (BookingForm.is_valid booking = true ->
              serve (CreateBookingView (Some V) POST k booking) (snd out)
              = (Http404, snd out))).
Proof.
  intros w U k t Hget Howner out.
  destruct (get_by_pk_key _ _ _ Hget) as [Hk _].
  assert (Htest : (U =? Trip.owner t) = true) by (apply Z.eqb_eq; congruence).
  assert (Hout : out =
            (redirect url_dashboard,
             mkWorld
               (mkDB (filter (fun t0 => negb (Trip.pk t0 =? k)) (Trip_objects (database w)))
                  (Booking_objects (database w)) (Aircraft_objects (database w)))
               (flash w ++ [(level_success, "Viagem removida com sucesso.")]))).
  { subst out. run_view. rewrite Hget. run_view. rewrite Htest. run_view.
    rewrite Hget. run_view. rewrite Hk. reflexivity. }
  clearbody out. subst out. cbn [fst snd].
  set (after := mkWorld _ _).
  assert (Hmem : forall t', In t' (Trip_objects (database after)) <->
                            In t' (Trip_objects (database w)) /\ Trip.pk t' <> k).
  { intro t'. unfold after. cbn [database Trip_objects].
    rewrite filter_In, negb_true_iff, Z.eqb_neq. reflexivity. }
  assert (Hgone : get_by_pk Trip.pk k (Trip_objects (database after)) = None).
  { apply get_by_pk_none. intros x Hx. apply Hmem in Hx. tauto. }
  split.
  { run_view. rewrite Hget. run_view. rewrite Htest. run_view.
    rewrite Hget. reflexivity. }
  split; [reflexivity|]. split; [reflexivity|]. split; [exact Hmem|].
  split.
  { run_more. rewrite Hgone. reflexivity. }
  intros V method form booking. split; [|split].
  - run_view. rewrite Hgone. reflexivity.
  - run_view. rewrite Hgone. reflexivity.
  - intro Hvalid. run_view. rewrite Hvalid, Hgone. reflexivity.
Qed.

(** A trip that its creator has just announced is on the creator's
    dashboard, with the submitted values and the creator as owner,
    beside the trips that were there; the dashboard of every other
    user lists what it listed before. *)
Theorem created_trip_is_on_the_dashboard :
  forall (default_status : string) (w : World) (U : User) (form : TripForm.t),
    TripForm_is_valid
      (filter (fun a => Aircraft.owner a =? U) (Aircraft_objects (database w))) form
    = true ->
    let after := snd (serve (TripCreateView default_status (Some U) POST form) w) in
    exists t,
      holds_form t form
      /\ Trip.owner t = U
      /\ Trip.status t = default_status
      /\ In t (listed (fst (serve (DashboardView (Some U)) after)))
      /\ Permutation (listed (fst (serve (DashboardView (Some U)) after)))
           (t :: listed (fst (serve (DashboardView (Some U)) w)))
      /\ (forall V, V <> U ->
            fst (serve (DashboardView (Some V)) after)
            = fst (serve (DashboardView (Some V)) w)).
Proof.
  intros default_status w U form Hvalid after.
  set (row := Trip.mk (next_pk Trip.pk (Trip_objects (database w))) U
                (chosen (TripForm.aircraft form))
                (TripForm.origin form) (TripForm.destination form)
                (TripForm.departure_time form) (TripForm.arrival_time form)
                (TripForm.available_seats form) (TripForm.description form)
                default_status).
  assert (Hafter : Trip_objects (database after) = Trip_objects (database w) ++ [row]).
  { subst after. run_view. rewrite Hvalid. reflexivity. }
  clearbody after.
  assert (Hdash : forall V w0,
            listed (fst (serve (DashboardView (Some V)) w0))
            = order_by (fun t => - Trip.departure_time t)
                (filter (fun t => Trip.owner t =? V) (Trip_objects (database w0))))
    by reflexivity.
  assert (Hperm : Permutation (listed (fst (serve (DashboardView (Some U)) after)))
                    (row :: listed (fst (serve (DashboardView (Some U)) w)))).
  { rewrite !Hdash, Hafter, filter_app. cbn [filter Trip.owner row].
    rewrite Z.eqb_refl.
    eapply perm_trans; [apply order_by_perm|].
    eapply perm_trans; [apply Permutation_app_comm|].
    cbn [app]. apply perm_skip, Permutation_sym, order_by_perm. }
  exists row. split; [|split; [reflexivity|split; [reflexivity|split; [|split]]]].
  - unfold TripForm_is_valid in Hvalid. apply andb_true_iff in Hvalid.
    destruct Hvalid as [_ Hchoice]. unfold choice_valid in Hchoice.
    unfold holds_form, row. cbn.
    destruct (TripForm.aircraft form); [|discriminate]. repeat split.
  - eapply Permutation_in; [apply Permutation_sym, Hperm|]. left. reflexivity.
  - exact Hperm.
  - intros V HV.
    assert (E : listed (fst (serve (DashboardView (Some V)) after))
                = listed (fst (serve (DashboardView (Some V)) w))).
    { rewrite !Hdash, Hafter, filter_app. cbn [filter Trip.owner row].
      replace (U =? V) with false by (symmetry; apply Z.eqb_neq; congruence).
      rewrite app_nil_r. reflexivity. }
    change (fst (serve (DashboardView (Some V)) after))
      with (render "dashboard.html"
              (ctx_trips "owner_trips"
                 (listed (fst (serve (DashboardView (Some V)) after))))).
    rewrite E. reflexivity.
Qed.


(* ================================================================== *)
(** * These properties on the sample store *)

(** User 30 books trip 1 and is then told so on a second try. *)
Lemma booking_is_stored_and_found_witness :
  BookingForm.is_valid Sample.booking_form = true
  /\ get_by_pk Trip.pk 1 (Trip_objects (database Sample.world)) = Some Sample.natal
  /\ Trip.owner Sample.natal <> 30
  /\ bookings_of (database Sample.world) 1 30 = []
  /\ exists row,
       bookings_of
         (database
            (snd (serve (CreateBookingView (Some 30) POST 1 Sample.booking_form)
                    Sample.world))) 1 30 = [row]
       /\ Booking.seats_requested row = 2.
Proof.
  assert (Hv : BookingForm.is_valid Sample.booking_form = true) by reflexivity.
  assert (Hg : get_by_pk Trip.pk 1 (Trip_objects (database Sample.world))
               = Some Sample.natal) by reflexivity.
  assert (Ho : Trip.owner Sample.natal <> 30) by (simpl; lia).
  assert (Hn : bookings_of (database Sample.world) 1 30 = []) by reflexivity.
  split; [exact Hv|]. split; [exact Hg|]. split; [exact Ho|]. split; [exact Hn|].
  destruct (@booking_is_stored_and_found Sample.world 30 1 Sample.booking_form
              Sample.natal Hv Hg Ho Hn) as (row & Hrow & _ & _ & Hseats & _).
  exists row. split; [exact Hrow | exact Hseats].
Defined.

(** After requests by the owner, by two other users and by an
    anonymous one, no booking on a trip is its owner's. *)
Lemma bookings_are_never_the_owners_witness :
  no_self_booking (database Sample.world)
  /\ no_self_booking (database (book_all Scenario.requests Sample.world)).
Proof.
  assert (H : no_self_booking (database Sample.world)).
  { intros b t Hb. destruct Hb. }
  split; [exact H|].
  exact (@bookings_are_never_the_owners Scenario.requests Sample.world H).
Defined.

(** Nine seats are booked on trip 1 just the same when it is closed,
    gone and full. *)
Lemma booking_ignores_status_and_seats_witness :
  trip_identities (database Sample.world) = trip_identities (database Scenario.closed_world)
  /\ Trip.status Scenario.closed_natal = "CLOSED"
  /\ Trip.available_seats Scenario.closed_natal = 0
  /\ fst (book Scenario.request Scenario.closed_world) = redirect (url_trip_detail 1)
  /\ Booking_objects (database (snd (book Scenario.request Sample.world)))
     = Booking_objects (database (snd (book Scenario.request Scenario.closed_world)))
  /\ List.length
       (Booking_objects (database (snd (book Scenario.request Scenario.closed_world))))
     = 1%nat.
Proof.
  assert (Hid : trip_identities (database Sample.world)
                = trip_identities (database Scenario.closed_world)) by reflexivity.
  destruct (@booking_ignores_status_and_seats Scenario.request Sample.world
              Scenario.closed_world Hid eq_refl eq_refl) as (Hr & Hb & _).
  split; [exact Hid|]. split; [reflexivity|]. split; [reflexivity|].
  split; [rewrite <- Hr; reflexivity|]. split; [exact Hb|]. reflexivity.
Defined.

(** User 10 changes trip 1; the detail view shows the new departure. *)
Lemma owner_update_is_stored_witness :
  get_by_pk Trip.pk 1 (Trip_objects (database Sample.world)) = Some Sample.natal
  /\ Trip.owner Sample.natal = 10
  /\ TripForm_is_valid (Aircraft_objects (database Sample.world)) (Sample.trip_form 1) = true
  /\ exists t',
       get_by_pk Trip.pk 1
         (Trip_objects
            (database
               (snd (serve (TripUpdateView (Some 10) POST 1 (Sample.trip_form 1))
                       Sample.world)))) = Some t'
       /\ Trip.departure_time t' = 5000.
Proof.
  assert (Hg : get_by_pk Trip.pk 1 (Trip_objects (database Sample.world))
               = Some Sample.natal) by reflexivity.
  assert (Ho : Trip.owner Sample.natal = 10) by reflexivity.
  assert (Hv : TripForm_is_valid (Aircraft_objects (database Sample.world))
                 (Sample.trip_form 1) = true) by reflexivity.
  split; [exact Hg|]. split; [exact Ho|]. split; [exact Hv|].
  destruct (proj2 (@owner_update_is_stored Sample.world 10 1 (Sample.trip_form 1)
                     Sample.natal Hg Ho) Hv)
    as (t' & _ & _ & _ & _ & Hfound & _ & _ & Hform & _).
  exists t'. split; [exact Hfound|].
  destruct Hform as (_ & _ & _ & Hdep & _). exact Hdep.
Defined.

(** The keys 1, 2, 3 of the sample store are distinct, and the update
    of trip 1 by its owner leaves keys and owners as they were. *)
Lemma update_keeps_keys_and_owners_witness :
  NoDup (map Trip.pk (Trip_objects (database Sample.world)))
  /\ trip_identities
       (database
          (snd (serve (TripUpdateView (Some 10) POST 1 (Sample.trip_form 2)) Sample.world)))
     = [(1, 10); (2, 10); (3, 20)].
Proof.
  assert (Hnd : NoDup (map Trip.pk (Trip_objects (database Sample.world)))).
  { cbn. repeat constructor; cbn; intuition lia. }
  split; [exact Hnd|].
  exact (proj1 (@update_keeps_keys_and_owners Sample.world (Some 10) POST 1
                  (Sample.trip_form 2) Hnd)).
Defined.

(** No trip has key 7: updating or deleting it is NotFound. *)
Lemma missing_trip_is_not_found_witness :
  (forall t, In t (Trip_objects (database Sample.world)) -> Trip.pk t <> 7)
  /\ serve (TripUpdateView (Some 10) POST 7 (Sample.trip_form 1)) Sample.world
     = (Http404, Sample.world)
  /\ serve (TripDeleteView (Some 10) POST 7) Sample.world = (Http404, Sample.world).
Proof.
  assert (H : forall t, In t (Trip_objects (database Sample.world)) -> Trip.pk t <> 7).
  { intros t [<- | [<- | [<- | []]]]; cbn; lia. }
  split; [exact H|].
  exact (@missing_trip_is_not_found Sample.world 10 POST 7 (Sample.trip_form 1) H).
Defined.

(** User 10 deletes trip 1; its detail page is NotFound afterwards. *)
Lemma owner_delete_removes_the_trip_witness :
  get_by_pk Trip.pk 1 (Trip_objects (database Sample.world)) = Some Sample.natal
  /\ Trip.owner Sample.natal = 10
  /\ fst (serve (TripDetailView 1)
            (snd (serve (TripDeleteView (Some 10) POST 1) Sample.world)))
     = Http404
  /\ map Trip.pk
       (Trip_objects (database (snd (serve (TripDeleteView (Some 10) POST 1) Sample.world))))
     = [2; 3].
Proof.
  assert (Hg : get_by_pk Trip.pk 1 (Trip_objects (database Sample.world))
               = Some Sample.natal) by reflexivity.
  assert (Ho : Trip.owner Sample.natal = 10) by reflexivity.
  split; [exact Hg|]. split; [exact Ho|].
  destruct (@owner_delete_removes_the_trip Sample.world 10 1 Sample.natal Hg Ho)
    as (_ & _ & _ & _ & Hdetail & _).
  split; [exact (f_equal fst Hdetail) | reflexivity].
Defined.

(** User 10 announces a trip with aircraft 1; it is on their dashboard
    and not on that of user 20. *)
Lemma created_trip_is_on_the_dashboard_witness :
  TripForm_is_valid
    (filter (fun a => Aircraft.owner a =? 10) (Aircraft_objects (database Sample.world)))
    (Sample.trip_form 1) = true
  /\ map Trip.pk
       (listed
          (fst (serve (DashboardView (Some 10))
                  (snd (serve (TripCreateView "OPEN" (Some 10) POST (Sample.trip_form 1))
                          Sample.world)))))
     = [4; 2; 1]
  /\ fst (serve (DashboardView (Some 20))
            (snd (serve (TripCreateView "OPEN" (Some 10) POST (Sample.trip_form 1))
                    Sample.world)))
     = fst (serve (DashboardView (Some 20)) Sample.world).
Proof.
  assert (Hv : TripForm_is_valid
                 (filter (fun a => Aircraft.owner a =? 10)
                    (Aircraft_objects (database Sample.world)))
                 (Sample.trip_form 1) = true) by reflexivity.
  split; [exact Hv|]. split; [reflexivity|].
  destruct (@created_trip_is_on_the_dashboard "OPEN" Sample.world 10 (Sample.trip_form 1) Hv)
    as (t & _ & _ & _ & _ & _ & Hother).
  apply Hother. lia.
Defined.


(* ================================================================== *)
(** * A date that is no date *)

Lemma letters_only_no_hyphen (s : string) :
  letters_only s = true -> has "-" s = false.
Proof.
  induction s as [|c s IH]; [reflexivity|]. cbn [letters_only has].
  rewrite andb_true_iff. intros [Hc Hs]. rewrite (IH Hs), orb_false_r.
  destruct (Ascii.eqb_spec c "-") as [->|]; [|reflexivity].
  vm_compute in Hc. discriminate.
Qed.

Lemma letters_only_refused (text : string) :
  letters_only text = true -> parse_date text = None.
Proof.
  intro H. unfold parse_date.
  rewrite (@split_on_plain _ _ (@letters_only_no_hyphen _ H)). reflexivity.
Qed.

Lemma off_the_calendar_refused (text : string) :
  off_the_calendar text -> parse_date text = None.
Proof.
  intros (ys & ms & ds & y & m & d & -> & Ly & Hy & Lm & Hm & Ld & Hd & Hbad).
  unfold parse_date.
  change (ys ++ "-" ++ ms ++ "-" ++ ds)%string
    with (ys ++ String "-" (ms ++ String "-" ds))%string.
  rewrite (@split_on_field _ _ _ (@numeral_no_hyphen _ _ Hy)).
  rewrite (@split_on_field _ _ _ (@numeral_no_hyphen _ _ Hm)).
  rewrite (@split_on_plain _ _ (@numeral_no_hyphen _ _ Hd)).
  rewrite (@numeral_read _ _ Hy), (@numeral_read _ _ Hm), (@numeral_read _ _ Hd).
  replace (_ && on_calendar _) with false; [reflexivity|].
  symmetry. destruct Hbad as [Hy1 | Hcal].
  - apply Z.leb_gt in Hy1. rewrite Hy1, andb_false_r. reflexivity.
  - rewrite Hcal, andb_false_r. reflexivity.
Qed.

(** A search whose date is a word, or has the shape of a date and is
    none of the calendar (a thirteenth month, a thirtieth of February,
    the year 0000), has no result: the date lookup raises the
    ValidationError, whatever the other parameters and the page, and
    the store and the messages are as before. *)
Theorem date_that_is_no_date_fails :
  forall (date_lookup : Z -> string -> bool) (now : Z) (GET : QueryDict)
         (page : PageArg) (w : World) (v : string),
    supplied GET "date" v ->
    (v <> "" /\ letters_only v = true) \/ off_the_calendar v ->
    TripListView_get_queryset date_lookup now GET w = (Abort ValidationError, w)
    /\ serve (TripListView date_lookup now GET page) w = (ValidationError, w).
Proof.
  intros date_lookup now GET page w v Hv Hbad.
  apply QueryDict_get_supplied in Hv.
  assert (Hne : v <> "").
  { destruct Hbad as [[Hne _] | (ys & ms & ds & y & m & d & -> & _)]; [exact Hne|].
    destruct ys; discriminate. }
  assert (Hparse : parse_date v = None).
  { destruct Hbad as [[_ H] | H];
      [apply letters_only_refused | apply off_the_calendar_refused]; exact H. }
  assert (Hrefused : date_refused GET = true).
  { unfold date_refused. rewrite Hv. cbn [text_of]. rewrite Hparse.
    destruct v; [now elim Hne | reflexivity]. }
  assert (Hrun : TripListView_get_queryset date_lookup now GET w
                 = (Abort ValidationError, w)).
  { rewrite get_queryset_run, Hrefused. reflexivity. }
  split; [exact Hrun|].
  unfold serve, TripListView, bind. rewrite Hrun. reflexivity.
Qed.

(** The search for the date [Natal], and for the thirtieth of
    February. *)
Lemma date_that_is_no_date_fails_witness :
  supplied [("origin", "natal"); ("date", "Natal")] "date" "Natal"
  /\ serve (TripListView calendar_date_lookup 0
              [("origin", "natal"); ("date", "Natal")] page_absent) Sample.world
     = (ValidationError, Sample.world)
  /\ supplied [("date", "2024-02-30")] "date" "2024-02-30"
  /\ off_the_calendar "2024-02-30"
  /\ serve (TripListView calendar_date_lookup 0 [("date", "2024-02-30")] (page_int 1))
       Sample.world
     = (ValidationError, Sample.world).
Proof.
  assert (H1 : supplied [("origin", "natal"); ("date", "Natal")] "date" "Natal")
    by (apply QueryDict_get_supplied; reflexivity).
  assert (H2 : supplied [("date", "2024-02-30")] "date" "2024-02-30")
    by (apply QueryDict_get_supplied; reflexivity).
  assert (H3 : off_the_calendar "2024-02-30").
  { exists "2024", "02", "30", 2024, 2, 30.
    split; [reflexivity|]. split; [reflexivity|].
    split; [apply read_number_spec; reflexivity|]. split; [cbn; lia|].
    split; [apply read_number_spec; reflexivity|]. split; [cbn; lia|].
    split; [apply read_number_spec; reflexivity|]. right. reflexivity. }
  split; [exact H1|]. split.
  - apply (@date_that_is_no_date_fails calendar_date_lookup 0 _ page_absent
             Sample.world "Natal" H1).
    left. split; [discriminate | reflexivity].
  - split; [exact H2|]. split; [exact H3|].
    apply (@date_that_is_no_date_fails calendar_date_lookup 0 _ (page_int 1)
             Sample.world "2024-02-30" H2).
    right. exact H3.
Defined.

(** Dates as the search reads and compares them. *)
Example date_of_first_of_may :
  parse_date "2024-05-01" = Some (Date.mk 2024 5 1)
  /\ parse_date "2024-5-1" = Some (Date.mk 2024 5 1)
  /\ days_from_civil (Date.mk 2024 5 1) = 19844
  /\ calendar_date_lookup (19844 * 86400 + 3600) "2024-05-01" = true
  /\ calendar_date_lookup (19845 * 86400) "2024-05-01" = false.
Proof. repeat split. Qed.

Example leap_days :
  parse_date "2024-02-29" = Some (Date.mk 2024 2 29)
  /\ parse_date "2023-02-29" = None
  /\ parse_date "1900-02-29" = None
  /\ parse_date "2000-02-29" = Some (Date.mk 2000 2 29).
Proof. repeat split. Qed.

Example search_is_case_blind :
  icontains "Natal" "ATA" = true /\ icontains "Natal" "tal " = false.
Proof. split; reflexivity. Qed.

(* ================================================================== *)
(** * The keys of new rows *)



Example keys_of_the_sample :
  map Trip.pk (Trip_objects Sample.db) = [1; 2; 3]
  /\ next_pk Trip.pk (Trip_objects Sample.db) = 4.
Proof. split; reflexivity. Qed.
